(** * Raw Gadget example helpers ([examples/common.h])

    A shallow embedding of the transport wrappers ([usb_raw_open] ...
    [usb_raw_ep_set_halt]), and of the event and control-request loggers
    ([log_event], [log_control_request]), with the properties the
    specification states about them.

    Conventions.
    - A C [int], [__u8], [__u16], [__u32] value is a [Z]; where the code
      converts between widths the wrap-around is written out.
    - Memory the code reads through a pointer is a [list byte]: the bytes of
      the object the pointer designates.  A read past its end is a fault.
    - The kernel is an oracle: the result of [open] and [ioctl] and their
      effect on everything the kernel can touch (kernel state, the caller's
      buffers, [errno]) are parameters of the development. *)

From Stdlib Require Import ZArith Ascii String List Bool Lia.
From Stdlib Require Import Strings.Byte DecimalString HexadecimalString.
From Stdlib Require Import DecimalPos DecimalN DecimalZ.
From ExtLib Require Import Structures.Monad.
Import ListNotations.
Import MonadNotation.

Local Open Scope string_scope.
Local Open Scope list_scope.
Local Open Scope Z_scope.
Local Open Scope monad_scope.

Set Implicit Arguments.

(* ===================================================================== *)
(** * Bytes and fixed-width integers *)

(** The numeric value of a byte read from memory ([__u8]). *)
Definition u8 (b : byte) : Z := Z.of_N (Byte.to_N b).

(** Conversion of an integer value to [__u8]: the low eight bits. *)
Definition to_u8 (v : Z) : Z := v mod 256.

(** A 32-bit pattern read as a C [int] (what [%d] does with its argument). *)
Definition as_int (v : Z) : Z :=
  let w := v mod 2 ^ 32 in if w <? 2 ^ 31 then w else w - 2 ^ 32.

(** A 32-bit pattern read as a C [unsigned int] ([%u], [%x]). *)
Definition as_uint (v : Z) : Z := v mod 2 ^ 32.

(* ===================================================================== *)
(** * The C library pieces the file uses *)

(** [strlen]: the number of bytes before the first NUL of the object [s];
    [None] when the object holds no NUL (the scan leaves the object). *)
Fixpoint strlen (s : list byte) : option nat :=
  match s with
  | [] => None
  | b :: rest =>
      if Byte.eqb b x00 then Some O
      else match strlen rest with
           | Some n => Some (S n)
           | None => None
           end
  end.

(** The string a NUL-terminated object holds: its bytes before the NUL. *)
Fixpoint c_str (s : list byte) : option (list byte) :=
  match s with
  | [] => None
  | b :: rest =>
      if Byte.eqb b x00 then Some []
      else match c_str rest with
           | Some t => Some (b :: t)
           | None => None
           end
  end.

(** A cell of an automatic (stack) array: [None] until it is written. *)
Definition cell := option byte.

(** [strcpy (dst, src)]: copies the string and its NUL to the start of
    [dst].  Undefined ([None]) when [src] is not terminated or when the
    [strlen src + 1] bytes do not fit in [dst]. *)
Definition strcpy (dst : list cell) (src : list byte) : option (list cell) :=
  match strlen src with
  | None => None
  | Some n =>
      if (S n <=? length dst)%nat
      then Some (map Some (firstn (S n) src) ++ skipn (S n) dst)
      else None
  end.

(** The string the kernel finds in a name array: the written bytes before
    the first NUL; [None] when it meets an unwritten cell or no NUL first. *)
Fixpoint cells_str (s : list cell) : option (list byte) :=
  match s with
  | [] => None
  | None :: _ => None
  | Some b :: rest =>
      if Byte.eqb b x00 then Some []
      else match cells_str rest with
           | Some t => Some (b :: t)
           | None => None
           end
  end.

(** The newline character, as a string. *)
Definition nl : string := String (Ascii.ascii_of_nat 10) EmptyString.

Definition EXIT_FAILURE : Z := 1.

(** [O_RDWR] of [<fcntl.h>]. *)
Definition O_RDWR : Z := 2.

(* ===================================================================== *)
(** * Declarations of [common.h] *)

Definition UDC_NAME_LENGTH_MAX : nat := 128.

(** [enum usb_device_speed] of [<linux/usb/ch9.h>] (a system header, not
    part of the repository), with the values the header gives. *)
Inductive usb_device_speed :=
| USB_SPEED_UNKNOWN
| USB_SPEED_LOW
| USB_SPEED_FULL
| USB_SPEED_HIGH
| USB_SPEED_WIRELESS
| USB_SPEED_SUPER
| USB_SPEED_SUPER_PLUS.

Definition speed_value (s : usb_device_speed) : Z :=
  match s with
  | USB_SPEED_UNKNOWN => 0
  | USB_SPEED_LOW => 1
  | USB_SPEED_FULL => 2
  | USB_SPEED_HIGH => 3
  | USB_SPEED_WIRELESS => 4
  | USB_SPEED_SUPER => 5
  | USB_SPEED_SUPER_PLUS => 6
  end.

(** [struct usb_raw_init], as the local variable [arg] of [usb_raw_init]
    holds it: two arrays of [UDC_NAME_LENGTH_MAX] cells and a [__u8]. *)
Record usb_raw_init_arg := mk_usb_raw_init {
  driver_name : list cell;
  device_name : list cell;
  speed : Z
}.

(** [struct usb_raw_init arg;] before anything is stored in it: no cell
    of the arrays is written ([speed] is stored before it is read). *)
Definition indeterminate_init_arg : usb_raw_init_arg :=
  mk_usb_raw_init (repeat None UDC_NAME_LENGTH_MAX)
                  (repeat None UDC_NAME_LENGTH_MAX) 0.

Definition set_driver_name (a : usb_raw_init_arg) (v : list cell) :=
  mk_usb_raw_init v (device_name a) (speed a).

Definition set_device_name (a : usb_raw_init_arg) (v : list cell) :=
  mk_usb_raw_init (driver_name a) v (speed a).

Definition set_speed (a : usb_raw_init_arg) (v : Z) :=
  mk_usb_raw_init (driver_name a) (device_name a) v.

(** The sixteen [USB_RAW_IOCTL_*] requests, in the order of their numbers
    [_IO*('U', 0 .. 15, ...)]. *)
Inductive usb_raw_ioctl :=
| USB_RAW_IOCTL_INIT
| USB_RAW_IOCTL_RUN
| USB_RAW_IOCTL_EVENT_FETCH
| USB_RAW_IOCTL_EP0_WRITE
| USB_RAW_IOCTL_EP0_READ
| USB_RAW_IOCTL_EP_ENABLE
| USB_RAW_IOCTL_EP_DISABLE
| USB_RAW_IOCTL_EP_WRITE
| USB_RAW_IOCTL_EP_READ
| USB_RAW_IOCTL_CONFIGURE
| USB_RAW_IOCTL_VBUS_DRAW
| USB_RAW_IOCTL_EPS_INFO
| USB_RAW_IOCTL_EP0_STALL
| USB_RAW_IOCTL_EP_SET_HALT
| USB_RAW_IOCTL_EP_CLEAR_HALT
| USB_RAW_IOCTL_EP_SET_WEDGE.

(** The third argument of [ioctl]. *)
Inductive ioctl_arg :=
| ArgInt (v : Z)                    (* a scalar: [0], [ep], [power] *)
| ArgInit (a : usb_raw_init_arg)    (* [&arg]: the local struct, by contents *)
| ArgPtr (p : Z).                   (* a pointer of the caller, passed on *)

(** A call of one of the sixteen transport wrappers, with its arguments
    (pointers of the caller are addresses). *)
Inductive transport_call :=
| call_open
| call_init (fd : Z) (speed : usb_device_speed) (driver device : list byte)
| call_run (fd : Z)
| call_event_fetch (fd : Z) (event : Z)
| call_ep0_read (fd : Z) (io : Z)
| call_ep0_write (fd : Z) (io : Z)
| call_ep_enable (fd : Z) (desc : Z)
| call_ep_read (fd : Z) (io : Z)
| call_ep_disable (fd : Z) (ep : Z)
| call_ep_write_may_fail (fd : Z) (io : Z)
| call_ep_write (fd : Z) (io : Z)
| call_configure (fd : Z)
| call_vbus_draw (fd : Z) (power : Z)
| call_eps_info (fd : Z) (info : Z)
| call_ep0_stall (fd : Z)
| call_ep_set_halt (fd : Z) (ep : Z).

(** The name of the wrapper a call goes to. *)
Definition wrapper_name (c : transport_call) : string :=
  match c with
  | call_open => "usb_raw_open"
  | call_init _ _ _ _ => "usb_raw_init"
  | call_run _ => "usb_raw_run"
  | call_event_fetch _ _ => "usb_raw_event_fetch"
  | call_ep0_read _ _ => "usb_raw_ep0_read"
  | call_ep0_write _ _ => "usb_raw_ep0_write"
  | call_ep_enable _ _ => "usb_raw_ep_enable"
  | call_ep_read _ _ => "usb_raw_ep_read"
  | call_ep_disable _ _ => "usb_raw_ep_disable"
  | call_ep_write_may_fail _ _ => "usb_raw_ep_write_may_fail"
  | call_ep_write _ _ => "usb_raw_ep_write"
  | call_configure _ => "usb_raw_configure"
  | call_vbus_draw _ _ => "usb_raw_vbus_draw"
  | call_eps_info _ _ => "usb_raw_eps_info"
  | call_ep0_stall _ => "usb_raw_ep0_stall"
  | call_ep_set_halt _ _ => "usb_raw_ep_set_halt"
  end.

(** The fatal subset: every wrapper but [usb_raw_ep_write_may_fail]. *)
Definition fatal (c : transport_call) : bool :=
  match c with
  | call_ep_write_may_fail _ _ => false
  | _ => true
  end.

(** The text a fatal wrapper hands to [perror]. *)
Definition diagnostic (c : transport_call) : string :=
  match c with
  | call_open => "open()"
  | call_init _ _ _ _ => "ioctl(USB_RAW_IOCTL_INIT)"
  | call_run _ => "ioctl(USB_RAW_IOCTL_RUN)"
  | call_event_fetch _ _ => "ioctl(USB_RAW_IOCTL_EVENT_FETCH)"
  | call_ep0_read _ _ => "ioctl(USB_RAW_IOCTL_EP0_READ)"
  | call_ep0_write _ _ => "ioctl(USB_RAW_IOCTL_EP0_WRITE)"
  | call_ep_enable _ _ => "ioctl(USB_RAW_IOCTL_EP_ENABLE)"
  | call_ep_read _ _ => "ioctl(USB_RAW_IOCTL_EP_READ)"
  | call_ep_disable _ _ => "ioctl(USB_RAW_IOCTL_EP_DISABLE)"
  | call_ep_write_may_fail _ _ => ""
  | call_ep_write _ _ => "ioctl(USB_RAW_IOCTL_EP_WRITE)"
  | call_configure _ => "ioctl(USB_RAW_IOCTL_CONFIGURED)"
  | call_vbus_draw _ _ => "ioctl(USB_RAW_IOCTL_VBUS_DRAW)"
  | call_eps_info _ _ => "ioctl(USB_RAW_IOCTL_EPS_INFO)"
  | call_ep0_stall _ => "ioctl(USB_RAW_IOCTL_EP0_STALL)"
  | call_ep_set_halt _ _ => "ioctl(USB_RAW_IOCTL_EP_SET_HALT)"
  end.

(** What a wrapper gives back for the kernel result [rv]: the [int]
    wrappers return it, the [void] wrappers return nothing. *)
Definition returned (c : transport_call) (rv : Z) : option Z :=
  match c with
  | call_init _ _ _ _ | call_run _ | call_event_fetch _ _ | call_configure _
  | call_vbus_draw _ _ | call_ep0_stall _ | call_ep_set_halt _ _ => None
  | _ => Some rv
  end.

(** A name fits its array: it is terminated and, with its NUL, takes at
    most [UDC_NAME_LENGTH_MAX] bytes. *)
Definition fits_name (s : list byte) : bool :=
  match strlen s with
  | Some n => (S n <=? UDC_NAME_LENGTH_MAX)%nat
  | None => false
  end.

(** The [struct usb_raw_init] that [usb_raw_init] builds from its
    arguments; [None] when one of the two [strcpy] calls is undefined. *)
Definition init_arg (speed : usb_device_speed) (driver device : list byte)
  : option usb_raw_init_arg :=
  match strcpy (repeat None UDC_NAME_LENGTH_MAX) driver,
        strcpy (repeat None UDC_NAME_LENGTH_MAX) device with
  | Some dn, Some vn => Some (mk_usb_raw_init dn vn (to_u8 (speed_value speed)))
  | _, _ => None
  end.

(* ===================================================================== *)
(** * The process monad *)

Section Transport.

(** Everything the kernel can read or change: kernel state, the caller's
    buffers, [errno]. *)
Variable Env : Type.

(** The kernel calls: result and new environment. *)
Variable sys_open : string -> Z -> Env -> Z * Env.
Variable sys_ioctl : Z -> usb_raw_ioctl -> ioctl_arg -> Env -> Z * Env.

(** [strerror (errno)] in the given environment. *)
Variable strerror_errno : Env -> string.

(** The state of the process a wrapper can affect. *)
Record Proc := mkProc {
  env : Env;
  stderr : list string
}.

Inductive Outcome (A : Type) :=
| Returns (a : A) (p : Proc)       (* the function returns [a] *)
| Exits (status : Z) (p : Proc)    (* the process has terminated *)
| Undefined.                       (* undefined behaviour was reached *)

Arguments Exits {A} status p.
Arguments Undefined {A}.

Definition M (A : Type) : Type := Proc -> Outcome A.

#[local] Instance Monad_M : Monad M := {
  ret := fun _ a p => Returns a p;
  bind := fun _ _ c k p =>
    match c p with
    | Returns a p' => k a p'
    | Exits s p' => Exits s p'
    | Undefined => Undefined
    end
}.

Definition open (path : string) (flags : Z) : M Z :=
  fun p => let (rv, e) := sys_open path flags (env p) in
           Returns rv (mkProc e (stderr p)).

Definition ioctl (fd : Z) (req : usb_raw_ioctl) (arg : ioctl_arg) : M Z :=
  fun p => let (rv, e) := sys_ioctl fd req arg (env p) in
           Returns rv (mkProc e (stderr p)).

(** What [perror (s)] writes. *)
Definition perror_line (s : string) (e : Env) : string :=
  (s ++ ": " ++ strerror_errno e ++ nl)%string.

Definition perror (s : string) : M unit :=
  fun p => Returns tt (mkProc (env p) (stderr p ++ [perror_line s (env p)])).

Definition exit {A : Type} (status : Z) : M A :=
  fun p => Exits status p.

(** Undefined behaviour of a library call lifted to the process. *)
Definition defined {A : Type} (o : option A) : M A :=
  fun p => match o with Some a => Returns a p | None => Undefined end.

(* --------------------------------------------------------------------- *)
(** ** The wrappers *)

Definition usb_raw_open : M Z :=
  fd <- open "/dev/raw-gadget" O_RDWR ;;
  if fd <? 0 then
    perror "open()" ;;
    exit EXIT_FAILURE
  else ret fd.

Definition usb_raw_init (fd : Z) (speed : usb_device_speed)
    (driver device : list byte) : M unit :=
  let arg := indeterminate_init_arg in
  dn <- defined (strcpy (driver_name arg) driver) ;;
  let arg := set_driver_name arg dn in
  vn <- defined (strcpy (device_name arg) device) ;;
  let arg := set_device_name arg vn in
  let arg := set_speed arg (to_u8 (speed_value speed)) in
  rv <- ioctl fd USB_RAW_IOCTL_INIT (ArgInit arg) ;;
  if rv <? 0 then
    perror "ioctl(USB_RAW_IOCTL_INIT)" ;;
    exit EXIT_FAILURE
  else ret tt.

Definition usb_raw_run (fd : Z) : M unit :=
  rv <- ioctl fd USB_RAW_IOCTL_RUN (ArgInt 0) ;;
  if rv <? 0 then
    perror "ioctl(USB_RAW_IOCTL_RUN)" ;;
    exit EXIT_FAILURE
  else ret tt.

Definition usb_raw_event_fetch (fd : Z) (event : Z) : M unit :=
  rv <- ioctl fd USB_RAW_IOCTL_EVENT_FETCH (ArgPtr event) ;;
  if rv <? 0 then
    perror "ioctl(USB_RAW_IOCTL_EVENT_FETCH)" ;;
    exit EXIT_FAILURE
  else ret tt.

Definition usb_raw_ep0_read (fd : Z) (io : Z) : M Z :=
  rv <- ioctl fd USB_RAW_IOCTL_EP0_READ (ArgPtr io) ;;
  if rv <? 0 then
    perror "ioctl(USB_RAW_IOCTL_EP0_READ)" ;;
    exit EXIT_FAILURE
  else ret rv.

Definition usb_raw_ep0_write (fd : Z) (io : Z) : M Z :=
  rv <- ioctl fd USB_RAW_IOCTL_EP0_WRITE (ArgPtr io) ;;
  if rv <? 0 then
    perror "ioctl(USB_RAW_IOCTL_EP0_WRITE)" ;;
    exit EXIT_FAILURE
  else ret rv.

Definition usb_raw_ep_enable (fd : Z) (desc : Z) : M Z :=
  rv <- ioctl fd USB_RAW_IOCTL_EP_ENABLE (ArgPtr desc) ;;
  if rv <? 0 then
    perror "ioctl(USB_RAW_IOCTL_EP_ENABLE)" ;;
    exit EXIT_FAILURE
  else ret rv.

Definition usb_raw_ep_read (fd : Z) (io : Z) : M Z :=
  rv <- ioctl fd USB_RAW_IOCTL_EP_READ (ArgPtr io) ;;
  if rv <? 0 then
    perror "ioctl(USB_RAW_IOCTL_EP_READ)" ;;
    exit EXIT_FAILURE
  else ret rv.

Definition usb_raw_ep_disable (fd : Z) (ep : Z) : M Z :=
  rv <- ioctl fd USB_RAW_IOCTL_EP_DISABLE (ArgInt ep) ;;
  if rv <? 0 then
    perror "ioctl(USB_RAW_IOCTL_EP_DISABLE)" ;;
    exit EXIT_FAILURE
  else ret rv.

Definition usb_raw_ep_write_may_fail (fd : Z) (io : Z) : M Z :=
  ioctl fd USB_RAW_IOCTL_EP_WRITE (ArgPtr io).

Definition usb_raw_ep_write (fd : Z) (io : Z) : M Z :=
  rv <- ioctl fd USB_RAW_IOCTL_EP_WRITE (ArgPtr io) ;;
  if rv <? 0 then
    perror "ioctl(USB_RAW_IOCTL_EP_WRITE)" ;;
    exit EXIT_FAILURE
  else ret rv.

Definition usb_raw_configure (fd : Z) : M unit :=
  rv <- ioctl fd USB_RAW_IOCTL_CONFIGURE (ArgInt 0) ;;
  if rv <? 0 then
    perror "ioctl(USB_RAW_IOCTL_CONFIGURED)" ;;
    exit EXIT_FAILURE
  else ret tt.

Definition usb_raw_vbus_draw (fd : Z) (power : Z) : M unit :=
  rv <- ioctl fd USB_RAW_IOCTL_VBUS_DRAW (ArgInt power) ;;
  if rv <? 0 then
    perror "ioctl(USB_RAW_IOCTL_VBUS_DRAW)" ;;
    exit EXIT_FAILURE
  else ret tt.

Definition usb_raw_eps_info (fd : Z) (info : Z) : M Z :=
  rv <- ioctl fd USB_RAW_IOCTL_EPS_INFO (ArgPtr info) ;;
  if rv <? 0 then
    perror "ioctl(USB_RAW_IOCTL_EPS_INFO)" ;;
    exit EXIT_FAILURE
  else ret rv.

Definition usb_raw_ep0_stall (fd : Z) : M unit :=
  rv <- ioctl fd USB_RAW_IOCTL_EP0_STALL (ArgInt 0) ;;
  if rv <? 0 then
    perror "ioctl(USB_RAW_IOCTL_EP0_STALL)" ;;
    exit EXIT_FAILURE
  else ret tt.

Definition usb_raw_ep_set_halt (fd : Z) (ep : Z) : M unit :=
  rv <- ioctl fd USB_RAW_IOCTL_EP_SET_HALT (ArgInt ep) ;;
  if rv <? 0 then
    perror "ioctl(USB_RAW_IOCTL_EP_SET_HALT)" ;;
    exit EXIT_FAILURE
  else ret tt.

(* --------------------------------------------------------------------- *)
(** ** The wrappers as one family *)

(** The shape the fatal wrappers share: the kernel call [k], then the test
    of its result, with [diag] handed to [perror]. *)
Definition checked (diag : string) (k : Env -> Z * Env) (p : Proc)
  : Outcome Z :=
  let (rv, e) := k (env p) in
  if rv <? 0
  then Exits EXIT_FAILURE (mkProc e (stderr p ++ [perror_line diag e]))
  else Returns rv (mkProc e (stderr p)).

(** Running a call: the wrapper applied to the call's arguments. *)
Definition invoke (c : transport_call) : M (option Z) :=
  match c with
  | call_open => rv <- usb_raw_open ;; ret (Some rv)
  | call_init fd speed driver device =>
      usb_raw_init fd speed driver device ;; ret None
  | call_run fd => usb_raw_run fd ;; ret None
  | call_event_fetch fd event => usb_raw_event_fetch fd event ;; ret None
  | call_ep0_read fd io => rv <- usb_raw_ep0_read fd io ;; ret (Some rv)
  | call_ep0_write fd io => rv <- usb_raw_ep0_write fd io ;; ret (Some rv)
  | call_ep_enable fd desc => rv <- usb_raw_ep_enable fd desc ;; ret (Some rv)
  | call_ep_read fd io => rv <- usb_raw_ep_read fd io ;; ret (Some rv)
  | call_ep_disable fd ep => rv <- usb_raw_ep_disable fd ep ;; ret (Some rv)
  | call_ep_write_may_fail fd io =>
      rv <- usb_raw_ep_write_may_fail fd io ;; ret (Some rv)
  | call_ep_write fd io => rv <- usb_raw_ep_write fd io ;; ret (Some rv)
  | call_configure fd => usb_raw_configure fd ;; ret None
  | call_vbus_draw fd power => usb_raw_vbus_draw fd power ;; ret None
  | call_eps_info fd info => rv <- usb_raw_eps_info fd info ;; ret (Some rv)
  | call_ep0_stall fd => usb_raw_ep0_stall fd ;; ret None
  | call_ep_set_halt fd ep => usb_raw_ep_set_halt fd ep ;; ret None
  end.

(** The kernel call that underlies a wrapper call, as a function of the
    environment it is made in; [None] when the wrapper reaches undefined
    behaviour before it gets to the kernel ([usb_raw_init] only). *)
Definition kernel_call (c : transport_call) : option (Env -> Z * Env) :=
  match c with
  | call_open => Some (sys_open "/dev/raw-gadget" O_RDWR)
  | call_init fd speed driver device =>
      match init_arg speed driver device with
      | Some a => Some (sys_ioctl fd USB_RAW_IOCTL_INIT (ArgInit a))
      | None => None
      end
  | call_run fd => Some (sys_ioctl fd USB_RAW_IOCTL_RUN (ArgInt 0))
  | call_event_fetch fd event =>
      Some (sys_ioctl fd USB_RAW_IOCTL_EVENT_FETCH (ArgPtr event))
  | call_ep0_read fd io => Some (sys_ioctl fd USB_RAW_IOCTL_EP0_READ (ArgPtr io))
  | call_ep0_write fd io =>
      Some (sys_ioctl fd USB_RAW_IOCTL_EP0_WRITE (ArgPtr io))
  | call_ep_enable fd desc =>
      Some (sys_ioctl fd USB_RAW_IOCTL_EP_ENABLE (ArgPtr desc))
  | call_ep_read fd io => Some (sys_ioctl fd USB_RAW_IOCTL_EP_READ (ArgPtr io))
  | call_ep_disable fd ep =>
      Some (sys_ioctl fd USB_RAW_IOCTL_EP_DISABLE (ArgInt ep))
  | call_ep_write_may_fail fd io =>
      Some (sys_ioctl fd USB_RAW_IOCTL_EP_WRITE (ArgPtr io))
  | call_ep_write fd io =>
      Some (sys_ioctl fd USB_RAW_IOCTL_EP_WRITE (ArgPtr io))
  | call_configure fd => Some (sys_ioctl fd USB_RAW_IOCTL_CONFIGURE (ArgInt 0))
  | call_vbus_draw fd power =>
      Some (sys_ioctl fd USB_RAW_IOCTL_VBUS_DRAW (ArgInt power))
  | call_eps_info fd info =>
      Some (sys_ioctl fd USB_RAW_IOCTL_EPS_INFO (ArgPtr info))
  | call_ep0_stall fd => Some (sys_ioctl fd USB_RAW_IOCTL_EP0_STALL (ArgInt 0))
  | call_ep_set_halt fd ep =>
      Some (sys_ioctl fd USB_RAW_IOCTL_EP_SET_HALT (ArgInt ep))
  end.

End Transport.

Arguments Returns {Env A} a p.
Arguments Exits {Env A} status p.
Arguments Undefined {Env A}.
Arguments mkProc {Env} env stderr.

(* --------------------------------------------------------------------- *)
(** ** A sample kernel

    For concrete runs.  The environment is the value of [errno]; [open]
    gives descriptor 3; [USB_RAW_IOCTL_RUN] and [USB_RAW_IOCTL_EP_WRITE]
    fail with [EINVAL] and every other request succeeds with 0. *)

Definition sample_open (path : string) (flags : Z) (errno : Z) : Z * Z :=
  (3, errno).

Definition sample_ioctl (fd : Z) (req : usb_raw_ioctl) (arg : ioctl_arg)
    (errno : Z) : Z * Z :=
  match req with
  | USB_RAW_IOCTL_RUN | USB_RAW_IOCTL_EP_WRITE => (-1, 22)
  | _ => (0, errno)
  end.

Definition sample_strerror (errno : Z) : string :=
  if errno =? 22 then "Invalid argument" else "Success".

(* ===================================================================== *)
(** * Formatted output *)

(** The conversions of [printf] the file uses, applied to a 32-bit
    argument: [%d] reads it as [int], [%u] and [%x] as [unsigned int]. *)
Definition fmt_d (v : Z) : string :=
  DecimalString.NilZero.string_of_int (Z.to_int (as_int v)).

Definition fmt_u (v : Z) : string :=
  DecimalString.NilZero.string_of_uint (N.to_uint (Z.to_N (as_uint v))).

Definition fmt_x (v : Z) : string :=
  HexadecimalString.NilZero.string_of_uint (N.to_hex_uint (Z.to_N (as_uint v))).

(** The characters a formatted decimal number is made of. *)
Definition numeric_char (c : Ascii.ascii) : bool :=
  existsb (Ascii.eqb c) (list_ascii_of_string "-0123456789").

Fixpoint all_numeric (s : string) : bool :=
  match s with
  | EmptyString => true
  | String c rest => numeric_char c && all_numeric rest
  end.

(** A C condition: any value but zero is true. *)
Definition c_true (v : Z) : bool := negb (v =? 0).

(** The text of [printf] calls, one string per call, in the order made. *)
Definition output := list string.

(* ===================================================================== *)
(** * Constants of the system headers

    [<linux/usb/ch9.h>] and [<linux/hid.h>] are system headers, not part
    of the repository; the values are the ones these headers give, which
    the USB 2.0 specification (chapter 9) and the HID 1.11 specification
    (section 7) fix. *)

Definition USB_DIR_OUT : Z := 0.
Definition USB_DIR_IN : Z := 0x80.

Definition USB_TYPE_MASK : Z := Z.shiftl 0x03 5.
Definition USB_TYPE_STANDARD : Z := Z.shiftl 0x00 5.
Definition USB_TYPE_CLASS : Z := Z.shiftl 0x01 5.
Definition USB_TYPE_VENDOR : Z := Z.shiftl 0x02 5.
Definition USB_TYPE_RESERVED : Z := Z.shiftl 0x03 5.

Definition USB_REQ_GET_STATUS : Z := 0x00.
Definition USB_REQ_CLEAR_FEATURE : Z := 0x01.
Definition USB_REQ_SET_FEATURE : Z := 0x03.
Definition USB_REQ_SET_ADDRESS : Z := 0x05.
Definition USB_REQ_GET_DESCRIPTOR : Z := 0x06.
Definition USB_REQ_SET_DESCRIPTOR : Z := 0x07.
Definition USB_REQ_GET_CONFIGURATION : Z := 0x08.
Definition USB_REQ_SET_CONFIGURATION : Z := 0x09.
Definition USB_REQ_GET_INTERFACE : Z := 0x0A.
Definition USB_REQ_SET_INTERFACE : Z := 0x0B.

Definition USB_DT_DEVICE : Z := 0x01.
Definition USB_DT_CONFIG : Z := 0x02.
Definition USB_DT_STRING : Z := 0x03.
Definition USB_DT_INTERFACE : Z := 0x04.
Definition USB_DT_ENDPOINT : Z := 0x05.
Definition USB_DT_DEVICE_QUALIFIER : Z := 0x06.
Definition USB_DT_OTHER_SPEED_CONFIG : Z := 0x07.
Definition USB_DT_INTERFACE_POWER : Z := 0x08.
Definition USB_DT_OTG : Z := 0x09.
Definition USB_DT_DEBUG : Z := 0x0a.
Definition USB_DT_INTERFACE_ASSOCIATION : Z := 0x0b.
Definition USB_DT_SECURITY : Z := 0x0c.
Definition USB_DT_KEY : Z := 0x0d.
Definition USB_DT_ENCRYPTION_TYPE : Z := 0x0e.
Definition USB_DT_BOS : Z := 0x0f.
Definition USB_DT_DEVICE_CAPABILITY : Z := 0x10.
Definition USB_DT_WIRELESS_ENDPOINT_COMP : Z := 0x11.
Definition USB_DT_PIPE_USAGE : Z := 0x24.
Definition USB_DT_SS_ENDPOINT_COMP : Z := 0x30.

Definition HID_DT_HID : Z := Z.lor USB_TYPE_CLASS 0x01.
Definition HID_DT_REPORT : Z := Z.lor USB_TYPE_CLASS 0x02.
Definition HID_DT_PHYSICAL : Z := Z.lor USB_TYPE_CLASS 0x03.

Definition HID_REQ_GET_REPORT : Z := 0x01.
Definition HID_REQ_GET_IDLE : Z := 0x02.
Definition HID_REQ_GET_PROTOCOL : Z := 0x03.
Definition HID_REQ_SET_REPORT : Z := 0x09.
Definition HID_REQ_SET_IDLE : Z := 0x0A.
Definition HID_REQ_SET_PROTOCOL : Z := 0x0B.

(** The printer-class request codes [common.h] defines itself. *)
Definition GET_DEVICE_ID : Z := 0.
Definition GET_PORT_STATUS : Z := 1.
Definition SOFT_RESET : Z := 2.

(** [struct usb_ctrlrequest] of [<linux/usb/ch9.h>]: the setup packet. *)
Record usb_ctrlrequest := mk_ctrlrequest {
  bRequestType : Z;   (* __u8 *)
  bRequest : Z;       (* __u8 *)
  wValue : Z;         (* __le16 *)
  wIndex : Z;         (* __le16 *)
  wLength : Z         (* __le16 *)
}.

(** The values of [enum usb_raw_event_type]. *)
Definition USB_RAW_EVENT_INVALID : Z := 0.
Definition USB_RAW_EVENT_CONNECT : Z := 1.
Definition USB_RAW_EVENT_CONTROL : Z := 2.
Definition USB_RAW_EVENT_SUSPEND : Z := 3.
Definition USB_RAW_EVENT_RESUME : Z := 4.
Definition USB_RAW_EVENT_RESET : Z := 5.
Definition USB_RAW_EVENT_DISCONNECT : Z := 6.

(** [struct usb_raw_event]: the two header words and the data area that
    follows them.  [event_data] is the memory from [data[0]] to the end of
    the object the event lives in; [event_length] is what the header
    declares, and the code never compares the two. *)
Record usb_raw_event := mk_event {
  event_type : Z;           (* __u32 type *)
  event_length : Z;         (* __u32 length *)
  event_data : list byte    (* __u8 data[] *)
}.

(* ===================================================================== *)
(** * The [switch] statement *)

(** An arm of a [switch]: its [case] constant and what it does. *)
Definition arm (A : Type) : Type := (Z * A)%type.

(** Every arm whose [case] constant equals [x], in source order.  C
    requires the constants of one [switch] to differ, so that this has at
    most one element. *)
Definition arms_matching {A : Type} (x : Z) (arms : list (arm A)) : list A :=
  map snd (filter (fun a => x =? fst a) arms).

(** [switch (x) { case k1: a1; break; ... default: d; }] with the arms in
    source order: the arm whose constant equals [x] runs, and [default]
    when there is none.  Where the source repeats a constant the model
    takes the arm written first. *)
Fixpoint switch {A : Type} (x : Z) (arms : list (arm A)) (default : A) : A :=
  match arms with
  | [] => default
  | (k, a) :: rest => if x =? k then a else switch x rest default
  end.

(* ===================================================================== *)
(** * [log_control_request] *)

Section LogControlRequest.

Variable ctrl : usb_ctrlrequest.

(** The first [printf]: the five fields and the direction. *)
Definition request_line : string :=
  ("  bRequestType: 0x" ++ fmt_x (bRequestType ctrl)
   ++ " (" ++ (if c_true (Z.land (bRequestType ctrl) USB_DIR_IN)
               then "IN" else "OUT")
   ++ "), bRequest: 0x" ++ fmt_x (bRequest ctrl)
   ++ ", wValue: 0x" ++ fmt_x (wValue ctrl)
   ++ ", wIndex: 0x" ++ fmt_x (wIndex ctrl)
   ++ ", wLength: " ++ fmt_d (wLength ctrl) ++ nl)%string.

(** The arms of the first [switch (ctrl->bRequestType & USB_TYPE_MASK)]. *)
Definition type_arms : list (arm output) :=
  [ (USB_TYPE_STANDARD, ["  type = USB_TYPE_STANDARD" ++ nl]%string);
    (USB_TYPE_CLASS, ["  type = USB_TYPE_CLASS" ++ nl]%string);
    (USB_TYPE_VENDOR, ["  type = USB_TYPE_VENDOR" ++ nl]%string) ].

Definition type_default : output :=
  [("  type = unknown = " ++ fmt_d (bRequestType ctrl) ++ nl)%string].

(** The arms of [switch (ctrl->wValue >> 8)].  The three [HID_DT_*] arms
    end in [return] where the others end in [break]; no statement follows
    the enclosing switches, so both leave the function with the same
    output. *)
Definition descriptor_arms : list (arm output) :=
  [ (USB_DT_DEVICE, ["  desc = USB_DT_DEVICE" ++ nl]%string);
    (USB_DT_CONFIG, ["  desc = USB_DT_CONFIG" ++ nl]%string);
    (USB_DT_STRING, ["  desc = USB_DT_STRING" ++ nl]%string);
    (USB_DT_INTERFACE, ["  desc = USB_DT_INTERFACE" ++ nl]%string);
    (USB_DT_ENDPOINT, ["  desc = USB_DT_ENDPOINT" ++ nl]%string);
    (USB_DT_DEVICE_QUALIFIER, ["  desc = USB_DT_DEVICE_QUALIFIER" ++ nl]%string);
    (USB_DT_OTHER_SPEED_CONFIG,
      ["  desc = USB_DT_OTHER_SPEED_CONFIG" ++ nl]%string);
    (USB_DT_INTERFACE_POWER, ["  desc = USB_DT_INTERFACE_POWER" ++ nl]%string);
    (USB_DT_OTG, ["  desc = USB_DT_OTG" ++ nl]%string);
    (USB_DT_DEBUG, ["  desc = USB_DT_DEBUG" ++ nl]%string);
    (USB_DT_INTERFACE_ASSOCIATION,
      ["  desc = USB_DT_INTERFACE_ASSOCIATION" ++ nl]%string);
    (USB_DT_SECURITY, ["  desc = USB_DT_SECURITY" ++ nl]%string);
    (USB_DT_KEY, ["  desc = USB_DT_KEY" ++ nl]%string);
    (USB_DT_ENCRYPTION_TYPE, ["  desc = USB_DT_ENCRYPTION_TYPE" ++ nl]%string);
    (USB_DT_BOS, ["  desc = USB_DT_BOS" ++ nl]%string);
    (USB_DT_DEVICE_CAPABILITY, ["  desc = USB_DT_DEVICE_CAPABILITY" ++ nl]%string);
    (USB_DT_WIRELESS_ENDPOINT_COMP,
      ["  desc = USB_DT_WIRELESS_ENDPOINT_COMP" ++ nl]%string);
    (USB_DT_PIPE_USAGE, ["  desc = USB_DT_PIPE_USAGE" ++ nl]%string);
    (USB_DT_SS_ENDPOINT_COMP, ["  desc = USB_DT_SS_ENDPOINT_COMP" ++ nl]%string);
    (HID_DT_HID, ["  descriptor = HID_DT_HID" ++ nl]%string);
    (HID_DT_REPORT, ["  descriptor = HID_DT_REPORT" ++ nl]%string);
    (HID_DT_PHYSICAL, ["  descriptor = HID_DT_PHYSICAL" ++ nl]%string) ].

Definition descriptor_default : output :=
  [("  desc = unknown = 0x" ++ fmt_x (Z.shiftr (wValue ctrl) 8) ++ nl)%string].

(** The arms of [switch (ctrl->bRequest)] under [USB_TYPE_STANDARD]. *)
Definition standard_arms : list (arm output) :=
  [ (USB_REQ_GET_DESCRIPTOR,
      ("  req = USB_REQ_GET_DESCRIPTOR" ++ nl)%string
      :: switch (Z.shiftr (wValue ctrl) 8) descriptor_arms descriptor_default);
    (USB_REQ_SET_CONFIGURATION, ["  req = USB_REQ_SET_CONFIGURATION" ++ nl]%string);
    (USB_REQ_GET_CONFIGURATION, ["  req = USB_REQ_GET_CONFIGURATION" ++ nl]%string);
    (USB_REQ_SET_INTERFACE, ["  req = USB_REQ_SET_INTERFACE" ++ nl]%string);
    (USB_REQ_GET_INTERFACE, ["  req = USB_REQ_GET_INTERFACE" ++ nl]%string);
    (USB_REQ_GET_STATUS, ["  req = USB_REQ_GET_STATUS" ++ nl]%string);
    (USB_REQ_CLEAR_FEATURE, ["  req = USB_REQ_CLEAR_FEATURE" ++ nl]%string);
    (USB_REQ_SET_FEATURE, ["  req = USB_REQ_SET_FEATURE" ++ nl]%string) ].

(** The arms of [switch (ctrl->bRequest)] under [USB_TYPE_CLASS], as the
    source lists them. *)
Definition class_arms : list (arm output) :=
  [ (GET_DEVICE_ID, ["  req = GET_DEVICE_ID" ++ nl]%string);
    (GET_PORT_STATUS, ["  req = GET_PORT_STATUS" ++ nl]%string);
    (SOFT_RESET, ["  req = SOFT_RESET" ++ nl]%string);
    (HID_REQ_GET_REPORT, ["  req = HID_REQ_GET_REPORT" ++ nl]%string);
    (HID_REQ_GET_IDLE, ["  req = HID_REQ_GET_IDLE" ++ nl]%string);
    (HID_REQ_GET_PROTOCOL, ["  req = HID_REQ_GET_PROTOCOL" ++ nl]%string);
    (HID_REQ_SET_REPORT, ["  req = HID_REQ_SET_REPORT" ++ nl]%string);
    (HID_REQ_SET_IDLE, ["  req = HID_REQ_SET_IDLE" ++ nl]%string);
    (HID_REQ_SET_PROTOCOL, ["  req = HID_REQ_SET_PROTOCOL" ++ nl]%string) ].

(** The [default] arm of each request switch (the class switch writes the
    label twice). *)
Definition request_default : output :=
  [("  req = unknown = 0x" ++ fmt_x (bRequest ctrl) ++ nl)%string].

(** The arms of the second [switch (ctrl->bRequestType & USB_TYPE_MASK)]. *)
Definition request_arms : list (arm output) :=
  [ (USB_TYPE_STANDARD, switch (bRequest ctrl) standard_arms request_default);
    (USB_TYPE_CLASS, switch (bRequest ctrl) class_arms request_default) ].

Definition log_control_request : output :=
  [request_line]
  ++ switch (Z.land (bRequestType ctrl) USB_TYPE_MASK) type_arms type_default
  ++ switch (Z.land (bRequestType ctrl) USB_TYPE_MASK) request_arms
       request_default.

End LogControlRequest.

(* ===================================================================== *)
(** * Objects in memory *)

(** An unsigned little-endian value from its bytes, low byte first. *)
Fixpoint le_value (bs : list byte) : Z :=
  match bs with
  | [] => 0
  | b :: rest => u8 b + 256 * le_value rest
  end.

(** The [n] bytes at offset [off] of the object [mem] as one value; [None]
    when they are not all inside the object. *)
Definition load (mem : list byte) (off n : nat) : option Z :=
  if (off + n <=? length mem)%nat
  then Some (le_value (firstn n (skipn off mem)))
  else None.

(** A run of a logging function: it returned after printing [out], or it
    read outside the object it was given after printing [out]. *)
Inductive logged :=
| Done (out : output)
| Fault (out : output).

Definition printed (r : logged) : output :=
  match r with Done out => out | Fault out => out end.

(* ===================================================================== *)
(** * Layout of the C declarations

    The layout rules are those of the Linux ABIs on little-endian
    machines: a scalar is aligned to its size, a struct to its most
    aligned member, a packed struct has no padding, a bit-field goes into
    the storage unit of its base type if it still fits there (low bits
    first), and a flexible array member takes no room in [sizeof]. *)

#[warnings="-register-all"]
Inductive ctype :=
| U8                                       (* __u8 *)
| U16                                      (* __u16, __le16 *)
| U32                                      (* __u32 *)
| Arr (elt : ctype) (n : nat)              (* elt name[n]; [n = 0]: name[] *)
| Bits (base : ctype) (width : nat)        (* base name : width *)
| Struct (packed : bool) (members : list (string * ctype)).

Definition round_up (n a : nat) : nat := ((n + a - 1) / a * a)%nat.

Fixpoint alignof (t : ctype) : nat :=
  match t with
  | U8 => 1
  | U16 => 2
  | U32 => 4
  | Arr elt _ => alignof elt
  | Bits base _ => alignof base
  | Struct packed ms =>
      if packed then 1%nat
      else (fix go (ms : list (string * ctype)) : nat :=
              match ms with
              | [] => 1%nat
              | (_, t) :: rest => Nat.max (alignof t) (go rest)
              end) ms
  end.

(** The bit at which a member of type [t], size [sz] and alignment [al]
    starts when the members before it end at bit [pos]. *)
Definition member_start (packed : bool) (t : ctype) (sz al pos : nat) : nat :=
  match t with
  | Bits _ w =>
      if (pos mod (8 * sz) + w <=? 8 * sz)%nat then pos
      else round_up pos (8 * sz)
  | _ => round_up pos (8 * (if packed then 1 else al))
  end.

(** The number of bits a member takes. *)
Definition member_width (t : ctype) (sz : nat) : nat :=
  match t with
  | Bits _ w => w
  | _ => (8 * sz)%nat
  end.

Fixpoint sizeof (t : ctype) : nat :=
  match t with
  | U8 => 1
  | U16 => 2
  | U32 => 4
  | Arr elt n => (n * sizeof elt)%nat
  | Bits base _ => sizeof base
  | Struct packed ms =>
      let last :=
        (fix go (ms : list (string * ctype)) (pos : nat) : nat :=
           match ms with
           | [] => pos
           | (_, t) :: rest =>
               let sz := sizeof t in
               go rest (member_start packed t sz (alignof t) pos
                        + member_width t sz)%nat
           end) ms 0%nat in
      round_up (round_up last 8 / 8) (alignof (Struct packed ms))
  end.

(** The members of a struct with the bit each starts at. *)
Fixpoint layout_from (packed : bool) (ms : list (string * ctype)) (pos : nat)
  : list (string * (nat * ctype)) :=
  match ms with
  | [] => []
  | (name, t) :: rest =>
      let sz := sizeof t in
      let start := member_start packed t sz (alignof t) pos in
      (name, (start, t)) :: layout_from packed rest (start + member_width t sz)
  end.

Definition layout (t : ctype) : list (string * (nat * ctype)) :=
  match t with
  | Struct packed ms => layout_from packed ms 0
  | _ => []
  end.

Fixpoint find_member (name : string) (l : list (string * (nat * ctype)))
  : option (nat * ctype) :=
  match l with
  | [] => None
  | (n, m) :: rest => if String.eqb name n then Some m else find_member name rest
  end.

(** [offsetof (t, name)], in bytes. *)
Definition offsetof (t : ctype) (name : string) : option nat :=
  match find_member name (layout t) with
  | Some (start, _) => Some (start / 8)%nat
  | None => None
  end.

(** The value of the scalar or bit-field member [name] of the struct that
    the object [mem] holds. *)
Definition field (t : ctype) (name : string) (mem : list byte) : option Z :=
  match find_member name (layout t) with
  | Some (start, Bits base w) =>
      let unit := (8 * sizeof base)%nat in
      match load mem (start / unit * sizeof base) (sizeof base) with
      | Some v =>
          Some (Z.land (Z.shiftr v (Z.of_nat (start mod unit)))
                       (Z.ones (Z.of_nat w)))
      | None => None
      end
  | Some (start, mt) => load mem (start / 8) (sizeof mt)
  | None => None
  end.

(** The bytes of the array or struct member [name]; for a flexible array
    member, the object from the member's offset on. *)
Definition member_bytes (t : ctype) (name : string) (mem : list byte)
  : option (list byte) :=
  match find_member name (layout t) with
  | Some (start, Arr _ O) =>
      if (start / 8 <=? length mem)%nat then Some (skipn (start / 8) mem)
      else None
  | Some (start, mt) =>
      if (start / 8 + sizeof mt <=? length mem)%nat
      then Some (firstn (sizeof mt) (skipn (start / 8) mem))
      else None
  | None => None
  end.

(** The elements of an array of [n] objects of [size] bytes each. *)
Fixpoint array_at {A : Type} (elt_at : list byte -> option A) (size n : nat)
    (mem : list byte) : option (list A) :=
  match n with
  | O => Some []
  | S n' =>
      match elt_at (firstn size mem), array_at elt_at size n' (skipn size mem) with
      | Some x, Some xs => Some (x :: xs)
      | _, _ => None
      end
  end.

(* --------------------------------------------------------------------- *)
(** ** The structs *)

Definition USB_RAW_EPS_NUM_MAX : nat := 30.
Definition USB_RAW_EP_NAME_MAX : nat := 16.
Definition USB_RAW_EP_ADDR_ANY : Z := 0xff.

Definition struct_hid_class_descriptor : ctype :=
  Struct true [ ("bDescriptorType", U8); ("wDescriptorLength", U16) ].

Definition struct_hid_descriptor : ctype :=
  Struct true
    [ ("bLength", U8); ("bDescriptorType", U8); ("bcdHID", U16);
      ("bCountryCode", U8); ("bNumDescriptors", U8);
      ("desc", Arr struct_hid_class_descriptor 1) ].

Definition struct_usb_raw_init : ctype :=
  Struct false
    [ ("driver_name", Arr U8 UDC_NAME_LENGTH_MAX);
      ("device_name", Arr U8 UDC_NAME_LENGTH_MAX);
      ("speed", U8) ].

Definition struct_usb_raw_event : ctype :=
  Struct false [ ("type", U32); ("length", U32); ("data", Arr U8 0) ].

Definition struct_usb_raw_ep_io : ctype :=
  Struct false
    [ ("ep", U16); ("flags", U16); ("length", U32); ("data", Arr U8 0) ].

Definition struct_usb_raw_ep_caps : ctype :=
  Struct false
    [ ("type_control", Bits U32 1);
      ("type_iso", Bits U32 1);
      ("type_bulk", Bits U32 1);
      ("type_int", Bits U32 1);
      ("dir_in", Bits U32 1);
      ("dir_out", Bits U32 1) ].

Definition struct_usb_raw_ep_limits : ctype :=
  Struct false
    [ ("maxpacket_limit", U16); ("max_streams", U16); ("reserved", U32) ].

Definition struct_usb_raw_ep_info : ctype :=
  Struct false
    [ ("name", Arr U8 USB_RAW_EP_NAME_MAX);
      ("addr", U32);
      ("caps", struct_usb_raw_ep_caps);
      ("limits", struct_usb_raw_ep_limits) ].

Definition struct_usb_raw_eps_info : ctype :=
  Struct false [ ("eps", Arr struct_usb_raw_ep_info USB_RAW_EPS_NUM_MAX) ].

(** [struct usb_ctrlrequest] of [<linux/usb/ch9.h>], declared packed. *)
Definition struct_usb_ctrlrequest : ctype :=
  Struct true
    [ ("bRequestType", U8); ("bRequest", U8);
      ("wValue", U16); ("wIndex", U16); ("wLength", U16) ].

(* --------------------------------------------------------------------- *)
(** ** Objects read as structs *)

(** [(struct usb_ctrlrequest * ) p], read through: the five fields of the
    setup packet at the start of the object [mem]. *)
Definition ctrl_at (mem : list byte) : option usb_ctrlrequest :=
  match field struct_usb_ctrlrequest "bRequestType" mem,
        field struct_usb_ctrlrequest "bRequest" mem,
        field struct_usb_ctrlrequest "wValue" mem,
        field struct_usb_ctrlrequest "wIndex" mem,
        field struct_usb_ctrlrequest "wLength" mem with
  | Some rt, Some rq, Some v, Some i, Some l =>
      Some (mk_ctrlrequest rt rq v i l)
  | _, _, _, _, _ => None
  end.

(** The event an object of at least [sizeof (struct usb_raw_event)] bytes
    holds: the two header words, and the rest as data area. *)
Definition event_at (mem : list byte) : option usb_raw_event :=
  match field struct_usb_raw_event "type" mem,
        field struct_usb_raw_event "length" mem,
        member_bytes struct_usb_raw_event "data" mem with
  | Some ty, Some len, Some data => Some (mk_event ty len data)
  | _, _, _ => None
  end.

Record usb_raw_ep_caps := mk_ep_caps {
  type_control : Z;
  type_iso : Z;
  type_bulk : Z;
  type_int : Z;
  dir_in : Z;
  dir_out : Z
}.

Record usb_raw_ep_limits := mk_ep_limits {
  maxpacket_limit : Z;
  max_streams : Z;
  reserved : Z
}.

Record usb_raw_ep_info := mk_ep_info {
  name : list byte;
  addr : Z;
  caps : usb_raw_ep_caps;
  limits : usb_raw_ep_limits
}.

(** [struct usb_raw_eps_info] (the wrapper has the name itself). *)
Record usb_raw_eps_info_table := mk_eps_info {
  eps : list usb_raw_ep_info
}.

Definition ep_caps_at (mem : list byte) : option usb_raw_ep_caps :=
  match field struct_usb_raw_ep_caps "type_control" mem,
        field struct_usb_raw_ep_caps "type_iso" mem,
        field struct_usb_raw_ep_caps "type_bulk" mem,
        field struct_usb_raw_ep_caps "type_int" mem,
        field struct_usb_raw_ep_caps "dir_in" mem,
        field struct_usb_raw_ep_caps "dir_out" mem with
  | Some c, Some i, Some b, Some n, Some din, Some dout =>
      Some (mk_ep_caps c i b n din dout)
  | _, _, _, _, _, _ => None
  end.

Definition ep_limits_at (mem : list byte) : option usb_raw_ep_limits :=
  match field struct_usb_raw_ep_limits "maxpacket_limit" mem,
        field struct_usb_raw_ep_limits "max_streams" mem,
        field struct_usb_raw_ep_limits "reserved" mem with
  | Some mp, Some ms, Some r => Some (mk_ep_limits mp ms r)
  | _, _, _ => None
  end.

Definition ep_info_at (mem : list byte) : option usb_raw_ep_info :=
  match member_bytes struct_usb_raw_ep_info "name" mem,
        field struct_usb_raw_ep_info "addr" mem,
        member_bytes struct_usb_raw_ep_info "caps" mem,
        member_bytes struct_usb_raw_ep_info "limits" mem with
  | Some nm, Some a, Some cm, Some lm =>
      match ep_caps_at cm, ep_limits_at lm with
      | Some c, Some l => Some (mk_ep_info nm a c l)
      | _, _ => None
      end
  | _, _, _, _ => None
  end.

(** The table [struct usb_raw_eps_info] an object holds. *)
Definition eps_info_at (mem : list byte) : option usb_raw_eps_info_table :=
  match member_bytes struct_usb_raw_eps_info "eps" mem with
  | Some em =>
      match array_at ep_info_at (sizeof struct_usb_raw_ep_info)
                     USB_RAW_EPS_NUM_MAX em with
      | Some l => Some (mk_eps_info l)
      | None => None
      end
  | None => None
  end.

(* ===================================================================== *)
(** * [log_event] *)

Definition log_event (event : usb_raw_event) : logged :=
  switch (event_type event)
    [ (USB_RAW_EVENT_CONNECT,
        Done [("event: connect, length: " ++ fmt_u (event_length event)
               ++ nl)%string]);
      (USB_RAW_EVENT_CONTROL,
        let out := [("event: control, length: " ++ fmt_u (event_length event)
                     ++ nl)%string] in
        match ctrl_at (event_data event) with
        | Some ctrl => Done (out ++ log_control_request ctrl)
        | None => Fault out
        end);
      (USB_RAW_EVENT_SUSPEND, Done ["event: suspend"]);
      (USB_RAW_EVENT_RESUME, Done ["event: resume"]);
      (USB_RAW_EVENT_RESET, Done ["event: reset"]);
      (USB_RAW_EVENT_DISCONNECT, Done ["event: disconnect"]) ]
    (Done [("event: " ++ fmt_d (event_type event) ++ " (unknown), length: "
            ++ fmt_u (event_length event) ++ nl)%string]).

(** The member names of a struct with their byte offsets and sizes. *)
Definition member_table (t : ctype) : list (string * (nat * nat)) :=
  map (fun m => (fst m, ((fst (snd m) / 8)%nat, sizeof (snd (snd m)))))
      (layout t).

(** What an entry of the endpoint table can hold, member by member: a
    name array of [USB_RAW_EP_NAME_MAX] bytes, a 32-bit address, six flags
    of one bit each, two 16-bit limits and the reserved 32-bit word. *)
Definition one_bit (v : Z) : Prop := v = 0 \/ v = 1.

Definition ep_info_shape (ep : usb_raw_ep_info) : Prop :=
  length (name ep) = USB_RAW_EP_NAME_MAX
  /\ 0 <= addr ep < 2 ^ 32
  /\ (one_bit (type_control (caps ep)) /\ one_bit (type_iso (caps ep))
      /\ one_bit (type_bulk (caps ep)) /\ one_bit (type_int (caps ep))
      /\ one_bit (dir_in (caps ep)) /\ one_bit (dir_out (caps ep)))
  /\ 0 <= maxpacket_limit (limits ep) < 2 ^ 16
  /\ 0 <= max_streams (limits ep) < 2 ^ 16
  /\ 0 <= reserved (limits ep) < 2 ^ 32.

(* ===================================================================== *)
(** * The request numbers

    The [_IO*] macros of [<sys/ioctl.h>] (the generic Linux encoding, as on
    x86 and ARM): two direction bits, fourteen size bits, eight type bits
    and eight number bits. *)

Definition _IOC_NONE : Z := 0.
Definition _IOC_WRITE : Z := 1.
Definition _IOC_READ : Z := 2.

Definition _IOC (dir type nr size : Z) : Z :=
  Z.lor (Z.lor (Z.lor (Z.shiftl dir 30) (Z.shiftl type 8)) (Z.shiftl nr 0))
        (Z.shiftl size 16).

Definition _IO (type nr : Z) : Z := _IOC _IOC_NONE type nr 0.
Definition _IOR (type nr : Z) (t : ctype) : Z :=
  _IOC _IOC_READ type nr (Z.of_nat (sizeof t)).
Definition _IOW (type nr : Z) (t : ctype) : Z :=
  _IOC _IOC_WRITE type nr (Z.of_nat (sizeof t)).
Definition _IOWR (type nr : Z) (t : ctype) : Z :=
  _IOC (Z.lor _IOC_READ _IOC_WRITE) type nr (Z.of_nat (sizeof t)).

Definition _IOC_DIR (code : Z) : Z := Z.land (Z.shiftr code 30) (Z.ones 2).
Definition _IOC_TYPE (code : Z) : Z := Z.land (Z.shiftr code 8) (Z.ones 8).
Definition _IOC_NR (code : Z) : Z := Z.land (Z.shiftr code 0) (Z.ones 8).
Definition _IOC_SIZE (code : Z) : Z := Z.land (Z.shiftr code 16) (Z.ones 14).

(** [struct usb_endpoint_descriptor] of [<linux/usb/ch9.h>], declared
    packed. *)
Definition struct_usb_endpoint_descriptor : ctype :=
  Struct true
    [ ("bLength", U8); ("bDescriptorType", U8); ("bEndpointAddress", U8);
      ("bmAttributes", U8); ("wMaxPacketSize", U16); ("bInterval", U8);
      ("bRefresh", U8); ("bSynchAddress", U8) ].

(** The character ['U']. *)
Definition char_U : Z := 0x55.

(** The value of each [USB_RAW_IOCTL_*] macro. *)
Definition request_code (r : usb_raw_ioctl) : Z :=
  match r with
  | USB_RAW_IOCTL_INIT => _IOW char_U 0 struct_usb_raw_init
  | USB_RAW_IOCTL_RUN => _IO char_U 1
  | USB_RAW_IOCTL_EVENT_FETCH => _IOR char_U 2 struct_usb_raw_event
  | USB_RAW_IOCTL_EP0_WRITE => _IOW char_U 3 struct_usb_raw_ep_io
  | USB_RAW_IOCTL_EP0_READ => _IOWR char_U 4 struct_usb_raw_ep_io
  | USB_RAW_IOCTL_EP_ENABLE => _IOW char_U 5 struct_usb_endpoint_descriptor
  | USB_RAW_IOCTL_EP_DISABLE => _IOW char_U 6 U32
  | USB_RAW_IOCTL_EP_WRITE => _IOW char_U 7 struct_usb_raw_ep_io
  | USB_RAW_IOCTL_EP_READ => _IOWR char_U 8 struct_usb_raw_ep_io
  | USB_RAW_IOCTL_CONFIGURE => _IO char_U 9
  | USB_RAW_IOCTL_VBUS_DRAW => _IOW char_U 10 U32
  | USB_RAW_IOCTL_EPS_INFO => _IOR char_U 11 struct_usb_raw_eps_info
  | USB_RAW_IOCTL_EP0_STALL => _IO char_U 12
  | USB_RAW_IOCTL_EP_SET_HALT => _IOW char_U 13 U32
  | USB_RAW_IOCTL_EP_CLEAR_HALT => _IOW char_U 14 U32
  | USB_RAW_IOCTL_EP_SET_WEDGE => _IOW char_U 15 U32
  end.

(** The requests in the order the file defines them. *)
Definition all_requests : list usb_raw_ioctl :=
  [ USB_RAW_IOCTL_INIT; USB_RAW_IOCTL_RUN; USB_RAW_IOCTL_EVENT_FETCH;
    USB_RAW_IOCTL_EP0_WRITE; USB_RAW_IOCTL_EP0_READ; USB_RAW_IOCTL_EP_ENABLE;
    USB_RAW_IOCTL_EP_DISABLE; USB_RAW_IOCTL_EP_WRITE; USB_RAW_IOCTL_EP_READ;
    USB_RAW_IOCTL_CONFIGURE; USB_RAW_IOCTL_VBUS_DRAW; USB_RAW_IOCTL_EPS_INFO;
    USB_RAW_IOCTL_EP0_STALL; USB_RAW_IOCTL_EP_SET_HALT;
    USB_RAW_IOCTL_EP_CLEAR_HALT; USB_RAW_IOCTL_EP_SET_WEDGE ].

(** The request whose macro has the given value, if any. *)
Definition request_of_code (code : Z) : option usb_raw_ioctl :=
  find (fun r => request_code r =? code) all_requests.

(* ===================================================================== *)
(** * More objects read as structs *)

(** [struct usb_raw_ep_io]: the header and the data area that follows. *)
Record usb_raw_ep_io := mk_ep_io {
  io_ep : Z;               (* __u16 ep *)
  io_flags : Z;            (* __u16 flags *)
  io_length : Z;           (* __u32 length *)
  io_data : list byte      (* __u8 data[] *)
}.

Definition ep_io_at (mem : list byte) : option usb_raw_ep_io :=
  match field struct_usb_raw_ep_io "ep" mem,
        field struct_usb_raw_ep_io "flags" mem,
        field struct_usb_raw_ep_io "length" mem,
        member_bytes struct_usb_raw_ep_io "data" mem with
  | Some ep, Some fl, Some len, Some data => Some (mk_ep_io ep fl len data)
  | _, _, _, _ => None
  end.

(** [struct hid_class_descriptor] and [struct hid_descriptor]. *)
Record hid_class_descriptor := mk_hid_class_descriptor {
  class_bDescriptorType : Z;     (* __u8 bDescriptorType *)
  wDescriptorLength : Z          (* __le16 wDescriptorLength *)
}.

Record hid_descriptor := mk_hid_descriptor {
  bLength : Z;                   (* __u8 *)
  bDescriptorType : Z;           (* __u8 *)
  bcdHID : Z;                    (* __le16 *)
  bCountryCode : Z;              (* __u8 *)
  bNumDescriptors : Z;           (* __u8 *)
  desc : list hid_class_descriptor   (* desc[1] *)
}.

Definition hid_class_descriptor_at (mem : list byte)
  : option hid_class_descriptor :=
  match field struct_hid_class_descriptor "bDescriptorType" mem,
        field struct_hid_class_descriptor "wDescriptorLength" mem with
  | Some t, Some l => Some (mk_hid_class_descriptor t l)
  | _, _ => None
  end.

Definition hid_descriptor_at (mem : list byte) : option hid_descriptor :=
  match field struct_hid_descriptor "bLength" mem,
        field struct_hid_descriptor "bDescriptorType" mem,
        field struct_hid_descriptor "bcdHID" mem,
        field struct_hid_descriptor "bCountryCode" mem,
        field struct_hid_descriptor "bNumDescriptors" mem,
        member_bytes struct_hid_descriptor "desc" mem with
  | Some l, Some t, Some v, Some c, Some n, Some dm =>
      match array_at hid_class_descriptor_at
              (sizeof struct_hid_class_descriptor) 1 dm with
      | Some d => Some (mk_hid_descriptor l t v c n d)
      | None => None
      end
  | _, _, _, _, _, _ => None
  end.

(* ===================================================================== *)
(** * Predicates on names and on printed text *)

(** No byte of the list is NUL. *)
Definition nul_free (s : list byte) : bool :=
  forallb (fun b => negb (Byte.eqb b x00)) s.

(** The last character of the text is a newline. *)
Fixpoint ends_nl (s : string) : bool :=
  match s with
  | EmptyString => false
  | String c EmptyString => Ascii.eqb c (Ascii.ascii_of_nat 10)
  | String _ rest => ends_nl rest
  end.

(** The text holds a newline somewhere. *)
Fixpoint has_nl (s : string) : bool :=
  match s with
  | EmptyString => false
  | String c rest => Ascii.eqb c (Ascii.ascii_of_nat 10) || has_nl rest
  end.

(** One bit of a byte, as 0 or 1. *)
Definition bit_of (b : byte) (i : Z) : Z := Z.b2z (Z.testbit (u8 b) i).

(* ===================================================================== *)
(** * Properties of the transport wrappers *)

(** ** Strings and [strcpy] *)

Lemma strlen_c_str s n :
  strlen s = Some n -> c_str s = Some (firstn n s).
Proof.
  revert n. induction s as [|b s IH]; intros n H; cbn in *; [discriminate|].
  destruct (Byte.eqb b x00).
  - injection H as <-. reflexivity.
  - destruct (strlen s) as [m|]; [|discriminate].
    injection H as <-. rewrite (IH m eq_refl). reflexivity.
Qed.

Lemma strlen_bound s n : strlen s = Some n -> (S n <= length s)%nat.
Proof.
  revert n. induction s as [|b s IH]; intros n H; cbn in *; [discriminate|].
  destruct (Byte.eqb b x00).
  - injection H as <-. lia.
  - destruct (strlen s) as [m|]; [|discriminate].
    injection H as <-. specialize (IH m eq_refl). lia.
Qed.

(** The string found in the cells [strcpy] wrote is the source string,
    whatever follows the copied bytes. *)
Lemma cells_str_copied s n rest :
  strlen s = Some n ->
  cells_str (map Some (firstn (S n) s) ++ rest) = c_str s.
Proof.
  revert n. induction s as [|b s IH]; intros n H; cbn in H; [discriminate|].
  destruct (Byte.eqb b x00) eqn:E.
  - injection H as <-. cbn. rewrite E. reflexivity.
  - destruct (strlen s) as [m|]; [|discriminate].
    injection H as <-.
    change (firstn (S (S m)) (b :: s)) with (b :: firstn (S m) s).
    cbn [map app cells_str c_str]. rewrite E, (IH m eq_refl). reflexivity.
Qed.

Lemma strcpy_fits dst s :
  length dst = UDC_NAME_LENGTH_MAX -> fits_name s = true ->
  exists cells,
    strcpy dst s = Some cells
    /\ length cells = UDC_NAME_LENGTH_MAX
    /\ cells_str cells = c_str s
    /\ c_str s <> None.
Proof.
  unfold fits_name, strcpy. intros Hd Hf.
  destruct (strlen s) as [n|] eqn:Hn; [|discriminate].
  rewrite Hd, Hf. eexists. split; [reflexivity|].
  apply Nat.leb_le in Hf. pose proof (strlen_bound s Hn) as Hb.
  repeat split.
  - rewrite length_app, length_map, length_firstn, length_skipn. lia.
  - now apply cells_str_copied.
  - rewrite (strlen_c_str s Hn). discriminate.
Qed.

Lemma strcpy_overflows dst s :
  length dst = UDC_NAME_LENGTH_MAX -> fits_name s = false ->
  strcpy dst s = None.
Proof.
  unfold fits_name, strcpy. intros Hd Hf.
  destruct (strlen s) as [n|]; [|reflexivity].
  rewrite Hd, Hf. reflexivity.
Qed.

Section TransportFacts.

Variable Env : Type.
Variable sys_open : string -> Z -> Env -> Z * Env.
Variable sys_ioctl : Z -> usb_raw_ioctl -> ioctl_arg -> Env -> Z * Env.
Variable strerror_errno : Env -> string.

Local Abbreviation invoke := (invoke sys_open sys_ioctl strerror_errno).
Local Abbreviation kernel_call := (kernel_call sys_open sys_ioctl).
Local Abbreviation perror_line := (perror_line strerror_errno).

Local Abbreviation checked := (checked strerror_errno).

Ltac kernel_result :=
  let rv := fresh "rv" in
  let e := fresh "e" in
  match goal with
  | |- context [sys_ioctl ?a ?b ?c ?d] =>
      destruct (sys_ioctl a b c d) as [rv e]
  | |- context [sys_open ?a ?b ?c] =>
      destruct (sys_open a b c) as [rv e]
  end; cbn; destruct (rv <? 0); reflexivity.

(** [usb_raw_init] in one step: the struct is built, then the checked
    kernel call is made on it. *)
Lemma usb_raw_init_run fd spd driver device p :
  usb_raw_init sys_ioctl strerror_errno fd spd driver device p =
  match init_arg spd driver device with
  | Some arg =>
      match checked "ioctl(USB_RAW_IOCTL_INIT)"
              (sys_ioctl fd USB_RAW_IOCTL_INIT (ArgInit arg)) p with
      | Returns _ p' => Returns tt p'
      | Exits s p' => Exits s p'
      | Undefined => Undefined
      end
  | None => Undefined
  end.
Proof.
  unfold usb_raw_init, init_arg, defined, indeterminate_init_arg,
    set_driver_name, set_device_name, set_speed.
  cbn [bind ret Monad_M driver_name device_name speed].
  destruct (strcpy _ driver) as [dn|]; [|reflexivity].
  destruct (strcpy _ device) as [vn|]; [|reflexivity].
  unfold checked, ioctl, perror, exit.
  kernel_result.
Qed.

Lemma invoke_fatal_checked c k p :
  fatal c = true -> kernel_call c = Some k ->
  invoke c p =
  match checked (diagnostic c) k p with
  | Returns rv p' => Returns (returned c rv) p'
  | Exits s p' => Exits s p'
  | Undefined => Undefined
  end.
Proof.
  intros Hf Hk.
  destruct c; try discriminate Hf; cbn in Hk.
  2: { cbn -[init_arg usb_raw_init]. rewrite usb_raw_init_run.
       destruct (init_arg _ driver device) as [arg|]; [|discriminate].
       injection Hk as <-.
       destruct (checked _ _ p); reflexivity. }
  all: injection Hk as <-; unfold checked; cbn; unfold ioctl, open;
       kernel_result.
Qed.

(** The diagnostics of the fatal wrappers are pairwise different: the
    text on the error stream tells which wrapper failed. *)
Lemma diagnostic_names_wrapper c c' :
  fatal c = true -> fatal c' = true ->
  diagnostic c = diagnostic c' -> wrapper_name c = wrapper_name c'.
Proof.
  intros Hc Hc' H.
  destruct c; try discriminate Hc;
    destruct c'; try discriminate Hc'; cbn in H |- *;
    first [reflexivity | discriminate H].
Qed.

(** C1.  For every call [c] of a wrapper of the fatal subset whose
    underlying kernel call [k], made in the environment of the process
    [p], returns [rv] and leaves the environment [e]: when [rv] is
    negative the process exits with [EXIT_FAILURE], and its only other
    effect beyond the kernel's is one [perror] line on the error stream,
    made of the wrapper's own diagnostic, which no other fatal wrapper
    uses; when [rv] is not negative the wrapper returns [rv] (nothing for
    the [void] wrappers) and the process state is what the kernel call
    left, with nothing written. *)
Theorem fatal_wrapper_exits_or_returns c k p rv e :
  fatal c = true -> kernel_call c = Some k -> k (env p) = (rv, e) ->
  (rv < 0 ->
   invoke c p =
   Exits EXIT_FAILURE
     (mkProc e (stderr p ++ [perror_line (diagnostic c) e]))
   /\ forall c', fatal c' = true -> diagnostic c' = diagnostic c ->
                 wrapper_name c' = wrapper_name c)
  /\ (0 <= rv ->
      invoke c p = Returns (returned c rv) (mkProc e (stderr p))).
Proof.
  intros Hf Hk Hr.
  rewrite (invoke_fatal_checked c p Hf Hk).
  unfold checked. rewrite Hr. split.
  - intros Hneg. apply Z.ltb_lt in Hneg. rewrite Hneg. split; [reflexivity|].
    intros c' Hf' Hd. now apply diagnostic_names_wrapper.
  - intros Hpos. apply Z.ltb_ge in Hpos. rewrite Hpos. reflexivity.
Qed.

(** What [usb_raw_ep_write_may_fail] does: the kernel call and nothing
    else. *)
Lemma ep_write_may_fail_run fd io p :
  usb_raw_ep_write_may_fail sys_ioctl fd io p =
  Returns (fst (sys_ioctl fd USB_RAW_IOCTL_EP_WRITE (ArgPtr io) (env p)))
          (mkProc (snd (sys_ioctl fd USB_RAW_IOCTL_EP_WRITE (ArgPtr io) (env p)))
                  (stderr p)).
Proof.
  unfold usb_raw_ep_write_may_fail, ioctl.
  destruct (sys_ioctl _ _ _ _); reflexivity.
Qed.

(** C2.  For every call [c] of any of the sixteen wrappers whose kernel
    call returns [rv] and leaves [e]: if [c] is a call of
    [usb_raw_ep_write_may_fail] it returns [rv], whatever its sign, with
    the process state the kernel call left; and if [rv] is negative, the
    call returns to its caller exactly when it is a call of
    [usb_raw_ep_write_may_fail] (so no other wrapper, and no endpoint
    read, lets a failure through). *)
Theorem ep_write_may_fail_only_nonfatal c k p rv e :
  kernel_call c = Some k -> k (env p) = (rv, e) ->
  (fatal c = false -> invoke c p = Returns (Some rv) (mkProc e (stderr p)))
  /\ (rv < 0 ->
      ((exists r p', invoke c p = Returns r p') <->
       exists fd io, c = call_ep_write_may_fail fd io)).
Proof.
  intros Hk Hr. split.
  - intros Hf. destruct c; try discriminate Hf.
    cbn in Hk. injection Hk as <-. cbn.
    rewrite ep_write_may_fail_run, Hr. reflexivity.
  - intros Hneg. split.
    + intros (r & p' & Hinv).
      destruct (fatal c) eqn:Hf.
      * rewrite (invoke_fatal_checked c p Hf Hk) in Hinv.
        unfold checked in Hinv. rewrite Hr in Hinv.
        apply Z.ltb_lt in Hneg. rewrite Hneg in Hinv. discriminate Hinv.
      * destruct c; try discriminate Hf. eauto.
    + intros (fd & io & ->). cbn in Hk. injection Hk as <-.
      cbn. rewrite ep_write_may_fail_run, Hr. eauto.
Qed.

(** C10.  [usb_raw_init] is defined exactly when both names fit their
    [UDC_NAME_LENGTH_MAX]-byte arrays, NUL included.  When they do, the
    wrapper makes the [USB_RAW_IOCTL_INIT] call on a struct whose two name
    arrays hold exactly the given driver and device strings and whose
    speed is the given speed, and then treats the result as every fatal
    wrapper does; when one does not, [strcpy] runs past its array and the
    behaviour is undefined. *)
Theorem usb_raw_init_passes_names fd spd driver device p :
  (fits_name driver && fits_name device = true ->
   exists arg,
     init_arg spd driver device = Some arg
     /\ length (driver_name arg) = UDC_NAME_LENGTH_MAX
     /\ length (device_name arg) = UDC_NAME_LENGTH_MAX
     /\ cells_str (driver_name arg) = c_str driver /\ c_str driver <> None
     /\ cells_str (device_name arg) = c_str device /\ c_str device <> None
     /\ speed arg = speed_value spd
     /\ usb_raw_init sys_ioctl strerror_errno fd spd driver device p =
        match checked "ioctl(USB_RAW_IOCTL_INIT)"
                (sys_ioctl fd USB_RAW_IOCTL_INIT (ArgInit arg)) p with
        | Returns _ p' => Returns tt p'
        | Exits s p' => Exits s p'
        | Undefined => Undefined
        end)
  /\ (fits_name driver && fits_name device = false ->
      usb_raw_init sys_ioctl strerror_errno fd spd driver device p = Undefined).
Proof.
  assert (Hlen : length (repeat (@None byte) UDC_NAME_LENGTH_MAX)
                 = UDC_NAME_LENGTH_MAX) by apply repeat_length.
  split.
  - intros H. apply andb_true_iff in H as [Hd Hv].
    destruct (strcpy_fits _ driver Hlen Hd) as (dn & Edn & Ldn & Sdn & Ndn).
    destruct (strcpy_fits _ device Hlen Hv) as (vn & Evn & Lvn & Svn & Nvn).
    exists (mk_usb_raw_init dn vn (to_u8 (speed_value spd))).
    unfold init_arg. rewrite Edn, Evn. cbn [driver_name device_name speed].
    repeat split; try assumption.
    + destruct spd; reflexivity.
    + rewrite usb_raw_init_run. unfold init_arg. rewrite Edn, Evn.
      reflexivity.
  - intros H. apply andb_false_iff in H.
    rewrite usb_raw_init_run. unfold init_arg.
    destruct (fits_name driver) eqn:Hd.
    + destruct H as [H|H]; [discriminate|].
      destruct (strcpy_fits _ driver Hlen Hd) as (dn & Edn & _).
      rewrite Edn, (strcpy_overflows _ device Hlen H). reflexivity.
    + rewrite (strcpy_overflows _ driver Hlen Hd). reflexivity.
Qed.

End TransportFacts.

(* ===================================================================== *)
(** * Properties of the formatted output *)

(** A formatted 32-bit number tells the 32 bits it was made from. *)
Lemma fmt_u_inj (a b : Z) : fmt_u a = fmt_u b -> a mod 2 ^ 32 = b mod 2 ^ 32.
Proof.
  unfold fmt_u, as_uint. intros H.
  assert (Hn : forall n, N.to_uint n <> Decimal.Nil).
  { intros [|p]; [discriminate | apply DecimalPos.Unsigned.to_uint_nonnil]. }
  apply (f_equal DecimalString.NilZero.uint_of_string) in H.
  rewrite !DecimalString.NilZero.usu in H by apply Hn.
  injection H as H. apply DecimalN.Unsigned.to_uint_inj in H.
  apply Z2N.inj in H; [exact H | |]; apply Z.mod_pos_bound; lia.
Qed.

Lemma fmt_d_inj (a b : Z) : fmt_d a = fmt_d b -> a mod 2 ^ 32 = b mod 2 ^ 32.
Proof.
  unfold fmt_d. intros H.
  assert (Hn : forall z, Z.to_int z <> Decimal.Pos Decimal.Nil
                         /\ Z.to_int z <> Decimal.Neg Decimal.Nil).
  { intros [|p|p]; cbn; split; try discriminate; intros E; injection E;
      apply DecimalPos.Unsigned.to_uint_nonnil. }
  apply (f_equal DecimalString.NilZero.int_of_string) in H.
  rewrite !DecimalString.NilZero.isi in H by apply Hn.
  injection H as H. apply DecimalZ.to_int_inj in H.
  unfold as_int in H.
  pose proof (Z.mod_pos_bound a (2 ^ 32)). pose proof (Z.mod_pos_bound b (2 ^ 32)).
  destruct (Z.ltb_spec (a mod 2 ^ 32) (2 ^ 31)),
           (Z.ltb_spec (b mod 2 ^ 32) (2 ^ 31)); lia.
Qed.

Lemma string_of_uint_numeric (d : Decimal.uint) :
  all_numeric (DecimalString.NilEmpty.string_of_uint d) = true.
Proof. induction d; cbn; auto. Qed.

Lemma fmt_u_numeric (v : Z) : all_numeric (fmt_u v) = true.
Proof.
  unfold fmt_u, DecimalString.NilZero.string_of_uint.
  destruct (N.to_uint _); try reflexivity; cbn; apply string_of_uint_numeric.
Qed.

Lemma fmt_d_numeric (v : Z) : all_numeric (fmt_d v) = true.
Proof.
  unfold fmt_d, DecimalString.NilZero.string_of_int,
    DecimalString.NilZero.string_of_uint.
  destruct (Z.to_int _) as [d|d]; destruct d; try reflexivity; cbn;
    apply string_of_uint_numeric.
Qed.

(** Two numbers followed by text that does not start like a number: the
    numbers end at the same place. *)
Lemma numeric_prefix (s1 s2 : string) (c1 c2 : Ascii.ascii) (r1 r2 : string) :
  all_numeric s1 = true -> all_numeric s2 = true ->
  numeric_char c1 = false -> numeric_char c2 = false ->
  (s1 ++ String c1 r1 = s2 ++ String c2 r2)%string ->
  s1 = s2 /\ r1 = r2.
Proof.
  revert s2. induction s1 as [|a s1 IH]; intros [|b s2] H1 H2 N1 N2 E;
    cbn in *.
  - injection E as _ E. auto.
  - injection E as E _. subst b. apply andb_true_iff in H2 as [H2 _].
    congruence.
  - injection E as E _. subst a. apply andb_true_iff in H1 as [H1 _].
    congruence.
  - injection E as -> E.
    apply andb_true_iff in H1 as [_ H1]. apply andb_true_iff in H2 as [_ H2].
    destruct (IH s2 H1 H2 N1 N2 E) as [-> ->]. auto.
Qed.

(* ===================================================================== *)
(** * Properties of the loggers *)

(** ** The [switch] statement *)

Lemma switch_no_arm {A : Type} (x : Z) (arms : list (arm A)) (d : A) :
  ~ In x (map fst arms) -> switch x arms d = d.
Proof.
  induction arms as [|[k a] arms IH]; cbn; intros H; [reflexivity|].
  destruct (Z.eqb_spec x k) as [->|_]; [exfalso; auto|].
  apply IH. auto.
Qed.

Lemma switch_arm {A : Type} (x : Z) (arms : list (arm A)) (d a : A) :
  NoDup (map fst arms) -> In (x, a) arms -> switch x arms d = a.
Proof.
  induction arms as [|[k b] arms IH]; cbn; intros Hnd Hin; [contradiction|].
  inversion Hnd as [|? ? Hk Hnd']; subst.
  destruct Hin as [E|Hin].
  - injection E as -> ->. now rewrite Z.eqb_refl.
  - destruct (Z.eqb_spec x k) as [->|_].
    + exfalso. apply Hk. change k with (fst (k, a)). now apply in_map.
    + now apply IH.
Qed.

Lemma arms_matching_none {A : Type} (x : Z) (arms : list (arm A)) :
  ~ In x (map fst arms) -> arms_matching x arms = [].
Proof.
  unfold arms_matching.
  induction arms as [|[k a] arms IH]; cbn; intros H; [reflexivity|].
  destruct (Z.eqb_spec x k) as [->|_]; [exfalso; auto|]. apply IH. auto.
Qed.

(** With distinct constants, at most one arm matches. *)
Lemma arms_matching_unique {A : Type} (x : Z) (arms : list (arm A)) :
  NoDup (map fst arms) -> (length (arms_matching x arms) <= 1)%nat.
Proof.
  induction arms as [|[k a] arms IH]; intros Hnd; [cbn; lia|].
  inversion Hnd as [|? ? Hk Hnd']; subst.
  unfold arms_matching in *. cbn.
  destruct (Z.eqb_spec x k) as [->|_]; [|now apply IH].
  cbn. pose proof (arms_matching_none k arms Hk) as E.
  unfold arms_matching in E. rewrite E. cbn. lia.
Qed.

(** ** Bits of a request type *)

Lemma land_pow2 a n :
  0 <= n -> Z.land a (2 ^ n) = if Z.testbit a n then 2 ^ n else 0.
Proof.
  intros Hn. apply Z.bits_inj'. intros m Hm.
  rewrite Z.land_spec, Z.pow2_bits_eqb by assumption.
  destruct (Z.eqb_spec n m) as [->|Hne].
  - rewrite andb_true_r. destruct (Z.testbit a m) eqn:E.
    + now rewrite Z.pow2_bits_true.
    + now rewrite Z.bits_0.
  - rewrite andb_false_r. destruct (Z.testbit a n).
    + rewrite Z.pow2_bits_false by assumption. reflexivity.
    + now rewrite Z.bits_0.
Qed.

(** The direction test looks at bit 7 and nothing else. *)
Lemma dir_in_bit7 a : c_true (Z.land a USB_DIR_IN) = Z.testbit a 7.
Proof.
  unfold c_true, USB_DIR_IN. change 0x80 with (2 ^ 7).
  rewrite land_pow2 by lia. destruct (Z.testbit a 7); reflexivity.
Qed.

(** The type mask keeps bits 6 and 5 and nothing else. *)
Lemma type_mask_bits a :
  Z.land a USB_TYPE_MASK =
  (if Z.testbit a 6 then 64 else 0) + (if Z.testbit a 5 then 32 else 0).
Proof.
  unfold USB_TYPE_MASK. change (Z.shiftl 0x03 5) with (Z.lor (2 ^ 6) (2 ^ 5)).
  rewrite Z.land_lor_distr_r, !land_pow2 by lia.
  destruct (Z.testbit a 6), (Z.testbit a 5); reflexivity.
Qed.

(** ** C5 *)

(** C5.  For every control request, the direction printed on the first
    line is [IN] exactly when bit 7 of [bRequestType] is set and [OUT]
    when it is clear, and the type line is chosen by bits 6 and 5 of
    [bRequestType] alone: 00 standard, 01 class, 10 vendor, and 11
    reported as unknown with the whole [bRequestType] in decimal. *)
Theorem setup_packet_bit_layout (ctrl : usb_ctrlrequest) :
  exists rest,
    log_control_request ctrl =
    [ ("  bRequestType: 0x" ++ fmt_x (bRequestType ctrl)
       ++ " (" ++ (if Z.testbit (bRequestType ctrl) 7 then "IN" else "OUT")
       ++ "), bRequest: 0x" ++ fmt_x (bRequest ctrl)
       ++ ", wValue: 0x" ++ fmt_x (wValue ctrl)
       ++ ", wIndex: 0x" ++ fmt_x (wIndex ctrl)
       ++ ", wLength: " ++ fmt_d (wLength ctrl) ++ nl)%string;
      match Z.testbit (bRequestType ctrl) 6, Z.testbit (bRequestType ctrl) 5 with
      | false, false => ("  type = USB_TYPE_STANDARD" ++ nl)%string
      | false, true => ("  type = USB_TYPE_CLASS" ++ nl)%string
      | true, false => ("  type = USB_TYPE_VENDOR" ++ nl)%string
      | true, true =>
          ("  type = unknown = " ++ fmt_d (bRequestType ctrl) ++ nl)%string
      end ] ++ rest.
Proof.
  exists (switch (Z.land (bRequestType ctrl) USB_TYPE_MASK)
            (request_arms ctrl) (request_default ctrl)).
  unfold log_control_request, request_line.
  rewrite dir_in_bit7. cbn [app]. f_equal.
  rewrite type_mask_bits at 1.
  destruct (Z.testbit (bRequestType ctrl) 6), (Z.testbit (bRequestType ctrl) 5);
    reflexivity.
Qed.

(** ** The setup packet in the data area *)

Lemma ctrl_at_bytes rt rq v0 v1 i0 i1 l0 l1 rest :
  ctrl_at (rt :: rq :: v0 :: v1 :: i0 :: i1 :: l0 :: l1 :: rest) =
  Some (mk_ctrlrequest (le_value [rt]) (le_value [rq]) (le_value [v0; v1])
          (le_value [i0; i1]) (le_value [l0; l1])).
Proof. reflexivity. Qed.

Lemma ctrl_at_short data :
  (length data < sizeof struct_usb_ctrlrequest)%nat -> ctrl_at data = None.
Proof.
  change (sizeof struct_usb_ctrlrequest) with 8%nat. intros H.
  do 8 (destruct data as [|? data]; [reflexivity|]).
  cbn in H. lia.
Qed.

Lemma ctrl_at_prefix d1 d2 :
  firstn 8 d1 = firstn 8 d2 -> (8 <= length d1)%nat -> ctrl_at d1 = ctrl_at d2.
Proof.
  intros H L.
  do 8 (destruct d1 as [|? d1]; [cbn in L; lia|]).
  do 8 (destruct d2 as [|? d2]; [discriminate H|]).
  cbn in H. injection H as -> -> -> -> -> -> -> ->.
  rewrite !ctrl_at_bytes. reflexivity.
Qed.

(** ** The line of the default arm *)

(** What the default arm of [log_event] prints for a tag and a length. *)
Local Abbreviation unknown_line t n :=
  ("event: " ++ fmt_d t ++ " (unknown), length: " ++ fmt_u n ++ nl)%string.

Lemma unknown_line_inj (t1 n1 t2 n2 : Z) :
  unknown_line t1 n1 = unknown_line t2 n2 ->
  t1 mod 2 ^ 32 = t2 mod 2 ^ 32 /\ n1 mod 2 ^ 32 = n2 mod 2 ^ 32.
Proof.
  intros H. cbn [append] in H. injection H as H.
  apply numeric_prefix in H as [Ht H];
    [ | apply fmt_d_numeric | apply fmt_d_numeric | reflexivity | reflexivity ].
  cbn [append] in H. injection H as H.
  unfold nl in H.
  apply numeric_prefix in H as [Hn _];
    [ | apply fmt_u_numeric | apply fmt_u_numeric | reflexivity | reflexivity ].
  split; [now apply fmt_d_inj | now apply fmt_u_inj].
Qed.

(** Text that starts with a letter is not a number followed by a space. *)
Lemma letter_first (c : Ascii.ascii) (r s r2 : string) :
  numeric_char c = false -> c <> " "%char -> all_numeric s = true ->
  String c r <> (s ++ String " " r2)%string.
Proof.
  intros Hc Hs Hn E. destruct s as [|a s]; cbn in *.
  - injection E as E _. auto.
  - injection E as E _. subst a. apply andb_true_iff in Hn as [Hn _].
    congruence.
Qed.

(** Only the default arm prints that line. *)
Lemma unknown_line_only (e : usb_raw_event) (t n : Z) :
  log_event e = Done [unknown_line t n] ->
  unknown_line (event_type e) (event_length e) = unknown_line t n
  /\ ~ In (event_type e)
         [USB_RAW_EVENT_CONNECT; USB_RAW_EVENT_CONTROL; USB_RAW_EVENT_SUSPEND;
          USB_RAW_EVENT_RESUME; USB_RAW_EVENT_RESET; USB_RAW_EVENT_DISCONNECT].
Proof.
  assert (L : forall (c : Ascii.ascii) (r : string) (rest : output),
            numeric_char c = false -> c <> " "%char ->
            Done (("event: " ++ String c r)%string :: rest)
            <> Done [unknown_line t n]).
  { intros c r rest Hc Hs E. cbn [append] in E. injection E as E _.
    revert E. apply letter_first; auto using fmt_d_numeric. }
  unfold log_event. cbn [switch]. intros H.
  destruct (Z.eqb_spec (event_type e) USB_RAW_EVENT_CONNECT).
  { exfalso. revert H. apply L; [reflexivity | discriminate]. }
  destruct (Z.eqb_spec (event_type e) USB_RAW_EVENT_CONTROL).
  { exfalso. destruct (ctrl_at (event_data e)); [|discriminate H].
    revert H. apply L; [reflexivity | discriminate]. }
  destruct (Z.eqb_spec (event_type e) USB_RAW_EVENT_SUSPEND).
  { exfalso. revert H. apply L; [reflexivity | discriminate]. }
  destruct (Z.eqb_spec (event_type e) USB_RAW_EVENT_RESUME).
  { exfalso. revert H. apply L; [reflexivity | discriminate]. }
  destruct (Z.eqb_spec (event_type e) USB_RAW_EVENT_RESET).
  { exfalso. revert H. apply L; [reflexivity | discriminate]. }
  destruct (Z.eqb_spec (event_type e) USB_RAW_EVENT_DISCONNECT).
  { exfalso. revert H. apply L; [reflexivity | discriminate]. }
  injection H as H. split; [cbn [append]; rewrite H; reflexivity|].
  cbn. intuition congruence.
Qed.

(** ** C3 *)

(** C3.  [log_event] handles every type tag.  Each of the six known tags
    goes to its own arm: connect, suspend, resume, reset and disconnect
    print their line and return; control prints its line first and then
    logs the setup packet found in the data area.  Every other tag,
    [USB_RAW_EVENT_INVALID] among them, goes to the default arm, which
    prints the tag (as [%d]) and the length and returns; no event with
    another 32-bit tag or length is logged with the same text. *)
Theorem log_event_total_over_type (event : usb_raw_event) :
  (event_type event = USB_RAW_EVENT_CONNECT ->
   log_event event =
   Done [("event: connect, length: " ++ fmt_u (event_length event) ++ nl)%string])
  /\ (event_type event = USB_RAW_EVENT_CONTROL ->
      (exists rest,
         printed (log_event event) =
         ("event: control, length: " ++ fmt_u (event_length event) ++ nl)%string
         :: rest)
      /\ forall ctrl, ctrl_at (event_data event) = Some ctrl ->
           log_event event =
           Done (("event: control, length: " ++ fmt_u (event_length event)
                  ++ nl)%string :: log_control_request ctrl))
  /\ (event_type event = USB_RAW_EVENT_SUSPEND ->
      log_event event = Done ["event: suspend"])
  /\ (event_type event = USB_RAW_EVENT_RESUME ->
      log_event event = Done ["event: resume"])
  /\ (event_type event = USB_RAW_EVENT_RESET ->
      log_event event = Done ["event: reset"])
  /\ (event_type event = USB_RAW_EVENT_DISCONNECT ->
      log_event event = Done ["event: disconnect"])
  /\ (~ In (event_type event)
          [USB_RAW_EVENT_CONNECT; USB_RAW_EVENT_CONTROL; USB_RAW_EVENT_SUSPEND;
           USB_RAW_EVENT_RESUME; USB_RAW_EVENT_RESET; USB_RAW_EVENT_DISCONNECT] ->
      log_event event =
      Done [("event: " ++ fmt_d (event_type event) ++ " (unknown), length: "
             ++ fmt_u (event_length event) ++ nl)%string]
      /\ forall other : usb_raw_event,
           log_event other = log_event event ->
           event_type other mod 2 ^ 32 = event_type event mod 2 ^ 32
           /\ event_length other mod 2 ^ 32 = event_length event mod 2 ^ 32).
Proof.
  repeat match goal with |- _ /\ _ => split end;
    try (intros Ht; unfold log_event; rewrite Ht; reflexivity).
  - intros Ht. unfold log_event. rewrite Ht. cbn [switch].
    cbn [Z.eqb USB_RAW_EVENT_CONTROL USB_RAW_EVENT_CONNECT Pos.eqb].
    split.
    + destruct (ctrl_at (event_data event)); cbn [printed app]; eauto.
    + intros ctrl ->. reflexivity.
  - intros H.
    assert (E : log_event event =
                Done [unknown_line (event_type event) (event_length event)])
      by (unfold log_event; now apply switch_no_arm).
    split; [exact E|].
    intros other Ho. rewrite E in Ho.
    apply unknown_line_only in Ho as [Ho _].
    now apply unknown_line_inj.
Qed.

(** ** C4 *)

(** What [log_event] prints is fixed by the two header words and, for a
    control event, by the setup packet read from the data area. *)
Lemma log_event_depends (e1 e2 : usb_raw_event) :
  event_type e1 = event_type e2 ->
  event_length e1 = event_length e2 ->
  (event_type e1 = USB_RAW_EVENT_CONTROL ->
   ctrl_at (event_data e1) = ctrl_at (event_data e2)) ->
  log_event e1 = log_event e2.
Proof.
  destruct e1 as [t1 n1 d1], e2 as [t2 n2 d2]. cbn. intros <- <- H.
  unfold log_event. cbn [event_type event_length event_data switch].
  destruct (t1 =? USB_RAW_EVENT_CONNECT); [reflexivity|].
  destruct (Z.eqb_spec t1 USB_RAW_EVENT_CONTROL) as [E|_]; [|reflexivity].
  rewrite (H E). reflexivity.
Qed.

(** C4, as stated, fails.  A control event that declares no payload at
    all, in an object whose data area holds eight bytes, is logged as a
    complete GET_DESCRIPTOR request; with other bytes in the data area the
    same header is logged as a SET_CONFIGURATION request.  The bytes read
    lie beyond the declared length, and the outcome is neither empty nor
    the unknown case.  When the object ends with the header, the read of
    the setup packet leaves the object. *)
Lemma log_event_reads_past_declared_length :
  let e1 := mk_event USB_RAW_EVENT_CONTROL 0
                     [x80; x06; x00; x01; x00; x00; x12; x00] in
  let e2 := mk_event USB_RAW_EVENT_CONTROL 0
                     [x00; x09; x01; x00; x00; x00; x00; x00] in
  let e3 := mk_event USB_RAW_EVENT_CONTROL 0 [] in
  event_length e1 < Z.of_nat (sizeof struct_usb_ctrlrequest)
  /\ event_type e1 = event_type e2
  /\ event_length e1 = event_length e2
  /\ firstn (Z.to_nat (event_length e1)) (event_data e1)
     = firstn (Z.to_nat (event_length e2)) (event_data e2)
  /\ log_event e1 =
     Done [ ("event: control, length: 0" ++ nl)%string;
            ("  bRequestType: 0x80 (IN), bRequest: 0x6, wValue: 0x100,"
             ++ " wIndex: 0x0, wLength: 18" ++ nl)%string;
            ("  type = USB_TYPE_STANDARD" ++ nl)%string;
            ("  req = USB_REQ_GET_DESCRIPTOR" ++ nl)%string;
            ("  desc = USB_DT_DEVICE" ++ nl)%string ]
  /\ log_event e2 =
     Done [ ("event: control, length: 0" ++ nl)%string;
            ("  bRequestType: 0x0 (OUT), bRequest: 0x9, wValue: 0x1,"
             ++ " wIndex: 0x0, wLength: 0" ++ nl)%string;
            ("  type = USB_TYPE_STANDARD" ++ nl)%string;
            ("  req = USB_REQ_SET_CONFIGURATION" ++ nl)%string ]
  /\ log_event e1 <> log_event e2
  /\ log_event e3 = Fault [("event: control, length: 0" ++ nl)%string].
Proof.
  cbv zeta. repeat split; try reflexivity.
  - vm_compute. discriminate.
Qed.

(** A control event is logged from the eight bytes at the start of its
    data area, whatever length it declares. *)
Lemma log_control_event (e : usb_raw_event) :
  event_type e = USB_RAW_EVENT_CONTROL ->
  (sizeof struct_usb_ctrlrequest <= length (event_data e))%nat ->
  exists ctrl,
    ctrl_at (firstn 8 (event_data e)) = Some ctrl
    /\ log_event e =
       Done (("event: control, length: " ++ fmt_u (event_length e) ++ nl)%string
             :: log_control_request ctrl).
Proof.
  change (sizeof struct_usb_ctrlrequest) with 8%nat. intros Ht L.
  destruct e as [t n d]. cbn [event_type event_length event_data] in *.
  destruct d as [|b0 [|b1 [|b2 [|b3 [|b4 [|b5 [|b6 [|b7 r]]]]]]]];
    cbn in L; try lia.
  eexists. split; [reflexivity|].
  unfold log_event. cbn [event_type event_length event_data]. rewrite Ht.
  reflexivity.
Qed.

(** An event of another type is logged from its header alone. *)
Lemma log_other_event (e : usb_raw_event) :
  event_type e <> USB_RAW_EVENT_CONTROL -> exists out, log_event e = Done out.
Proof.
  intros Ht. unfold log_event. cbn [switch].
  destruct (event_type e =? USB_RAW_EVENT_CONNECT); [eauto|].
  destruct (Z.eqb_spec (event_type e) USB_RAW_EVENT_CONTROL); [contradiction|].
  destruct (event_type e =? USB_RAW_EVENT_SUSPEND); [eauto|].
  destruct (event_type e =? USB_RAW_EVENT_RESUME); [eauto|].
  destruct (event_type e =? USB_RAW_EVENT_RESET); [eauto|].
  destruct (event_type e =? USB_RAW_EVENT_DISCONNECT); eauto.
Qed.

(** C4, amended.  [log_event] never looks at the declared length to
    decide what to read: an event of a type other than control is logged
    from its header alone, and a control event is logged from the eight
    bytes at the start of its data area, as a setup packet, whatever length
    it declares; the run returns whenever the object holds these eight
    bytes.  So two events with the same header are logged alike when, if
    they are control events, their data areas hold and agree on these
    eight bytes; in particular decoding depends on nothing beyond the
    declared payload when a control event declares at least the eight
    bytes of the setup packet and its data area holds the declared
    bytes. *)
Theorem log_event_within_declared_length (e1 e2 : usb_raw_event) :
  event_type e1 = event_type e2 ->
  event_length e1 = event_length e2 ->
  ((event_type e1 = USB_RAW_EVENT_CONTROL ->
    (sizeof struct_usb_ctrlrequest <= length (event_data e1))%nat
    /\ firstn 8 (event_data e1) = firstn 8 (event_data e2)) ->
   log_event e1 = log_event e2
   /\ (exists out, log_event e1 = Done out)
   /\ (event_type e1 = USB_RAW_EVENT_CONTROL ->
       exists ctrl,
         ctrl_at (firstn 8 (event_data e1)) = Some ctrl
         /\ log_event e1 =
            Done (("event: control, length: " ++ fmt_u (event_length e1)
                   ++ nl)%string :: log_control_request ctrl)))
  /\ ((event_type e1 = USB_RAW_EVENT_CONTROL ->
       Z.of_nat (sizeof struct_usb_ctrlrequest) <= event_length e1
       /\ (Z.to_nat (event_length e1) <= length (event_data e1))%nat) ->
      firstn (Z.to_nat (event_length e1)) (event_data e1)
      = firstn (Z.to_nat (event_length e2)) (event_data e2) ->
      log_event e1 = log_event e2 /\ exists out, log_event e1 = Done out).
Proof.
  intros Ht Hn.
  assert (A : (event_type e1 = USB_RAW_EVENT_CONTROL ->
               (sizeof struct_usb_ctrlrequest <= length (event_data e1))%nat
               /\ firstn 8 (event_data e1) = firstn 8 (event_data e2)) ->
              log_event e1 = log_event e2
              /\ exists out, log_event e1 = Done out).
  { intros Hc. split.
    - apply log_event_depends; try assumption.
      intros E. destruct (Hc E) as [L H8].
      apply ctrl_at_prefix; assumption.
    - destruct (Z.eq_dec (event_type e1) USB_RAW_EVENT_CONTROL) as [E|E].
      + destruct (Hc E) as [L _].
        destruct (log_control_event e1 E L) as (c & _ & ->). eauto.
      + now apply log_other_event. }
  split.
  - intros Hc. destruct (A Hc) as [E1 E2]. repeat split; try assumption.
    intros E. apply log_control_event; [exact E | apply (Hc E)].
  - intros Hc Hd. apply A. intros E. destruct (Hc E) as [H8 Hlen].
    change (sizeof struct_usb_ctrlrequest) with 8%nat in *.
    split; [lia|].
    rewrite <- Hn in Hd.
    apply (f_equal (firstn 8)) in Hd.
    rewrite !firstn_firstn in Hd.
    replace (Nat.min 8 (Z.to_nat (event_length e1))) with 8%nat in Hd by lia.
    exact Hd.
Qed.

(** ** C6: the request switches *)

(** What follows the two first lines for a standard and for a class
    request: the inner [switch (ctrl->bRequest)]. *)
Lemma log_standard_request (ctrl : usb_ctrlrequest) :
  Z.land (bRequestType ctrl) USB_TYPE_MASK = USB_TYPE_STANDARD ->
  log_control_request ctrl =
  [ request_line ctrl; ("  type = USB_TYPE_STANDARD" ++ nl)%string ]
  ++ switch (bRequest ctrl) (standard_arms ctrl) (request_default ctrl).
Proof. unfold log_control_request. intros ->. reflexivity. Qed.

Lemma log_class_request (ctrl : usb_ctrlrequest) :
  Z.land (bRequestType ctrl) USB_TYPE_MASK = USB_TYPE_CLASS ->
  log_control_request ctrl =
  [ request_line ctrl; ("  type = USB_TYPE_CLASS" ++ nl)%string ]
  ++ switch (bRequest ctrl) class_arms (request_default ctrl).
Proof. unfold log_control_request. intros ->. reflexivity. Qed.

(** The standard switch has eight arms with eight different constants;
    a request code outside them is reported as unknown. *)
Lemma standard_request_codes (ctrl : usb_ctrlrequest) :
  map fst (standard_arms ctrl) =
  [ USB_REQ_GET_DESCRIPTOR; USB_REQ_SET_CONFIGURATION;
    USB_REQ_GET_CONFIGURATION; USB_REQ_SET_INTERFACE; USB_REQ_GET_INTERFACE;
    USB_REQ_GET_STATUS; USB_REQ_CLEAR_FEATURE; USB_REQ_SET_FEATURE ]
  /\ NoDup (map fst (standard_arms ctrl))
  /\ (~ In (bRequest ctrl) (map fst (standard_arms ctrl)) ->
      switch (bRequest ctrl) (standard_arms ctrl) (request_default ctrl)
      = [("  req = unknown = 0x" ++ fmt_x (bRequest ctrl) ++ nl)%string]).
Proof.
  split; [reflexivity|]. split.
  - cbn. repeat constructor; cbn; intuition discriminate.
  - intros H. now apply switch_no_arm.
Qed.

(** Read arm by arm, the class switch reaches an arm for the request codes
    0, 1, 2, 3, 9, 10 and 11 and its default for every other code. *)
Lemma class_request_codes (ctrl : usb_ctrlrequest) :
  switch (bRequest ctrl) class_arms (request_default ctrl)
  = request_default ctrl
  <-> ~ In (bRequest ctrl) [0; 1; 2; 3; 9; 10; 11].
Proof.
  split.
  - intros H Hin. cbn in Hin.
    repeat (destruct Hin as [E|Hin];
            [rewrite <- E in H; cbn in H; discriminate H|]).
    exact Hin.
  - intros H. apply switch_no_arm. intros Hin. apply H.
    cbn in Hin |- *. unfold GET_DEVICE_ID, GET_PORT_STATUS, SOFT_RESET,
      HID_REQ_GET_REPORT, HID_REQ_GET_IDLE, HID_REQ_GET_PROTOCOL,
      HID_REQ_SET_REPORT, HID_REQ_SET_IDLE, HID_REQ_SET_PROTOCOL in Hin.
    intuition.
Qed.

(** C6, at the HID request GET_REPORT (class, interface, device to host;
    [bRequest = HID_REQ_GET_REPORT = 1]).  The class switch lists the
    constant 1 twice, for [GET_PORT_STATUS] and for [HID_REQ_GET_REPORT]
    (and 2 twice, for [SOFT_RESET] and [HID_REQ_GET_IDLE]), so two arms
    claim this request; read in order, the request is logged as the printer
    request [GET_PORT_STATUS], and the arms written for [HID_REQ_GET_REPORT]
    and [HID_REQ_GET_IDLE] are never taken: the switch behaves as the one
    without them. *)
Theorem class_request_codes_collide :
  let ctrl := mk_ctrlrequest 0xa1 HID_REQ_GET_REPORT 0x0100 0 8 in
  Z.land (bRequestType ctrl) USB_TYPE_MASK = USB_TYPE_CLASS
  /\ ~ NoDup (map fst class_arms)
  /\ arms_matching (bRequest ctrl) class_arms
     = [ [("  req = GET_PORT_STATUS" ++ nl)%string];
         [("  req = HID_REQ_GET_REPORT" ++ nl)%string] ]
  /\ log_control_request ctrl
     = [ ("  bRequestType: 0xa1 (IN), bRequest: 0x1, wValue: 0x100,"
          ++ " wIndex: 0x0, wLength: 8" ++ nl)%string;
         ("  type = USB_TYPE_CLASS" ++ nl)%string;
         ("  req = GET_PORT_STATUS" ++ nl)%string ]
  /\ forall (x : Z) (d : output),
       switch x class_arms d =
       switch x
         [ (GET_DEVICE_ID, [("  req = GET_DEVICE_ID" ++ nl)%string]);
           (GET_PORT_STATUS, [("  req = GET_PORT_STATUS" ++ nl)%string]);
           (SOFT_RESET, [("  req = SOFT_RESET" ++ nl)%string]);
           (HID_REQ_GET_PROTOCOL, [("  req = HID_REQ_GET_PROTOCOL" ++ nl)%string]);
           (HID_REQ_SET_REPORT, [("  req = HID_REQ_SET_REPORT" ++ nl)%string]);
           (HID_REQ_SET_IDLE, [("  req = HID_REQ_SET_IDLE" ++ nl)%string]);
           (HID_REQ_SET_PROTOCOL, [("  req = HID_REQ_SET_PROTOCOL" ++ nl)%string]) ]
         d.
Proof.
  cbv zeta. split; [reflexivity|]. split.
  { intros H. cbn in H. inversion H as [|? ? _ H1]; subst.
    inversion H1 as [|? ? Hn _]; subst. apply Hn. cbn. auto. }
  split; [reflexivity|]. split; [reflexivity|].
  intros x d. unfold class_arms. cbn [switch].
  destruct (x =? GET_DEVICE_ID); [reflexivity|].
  destruct (Z.eqb_spec x GET_PORT_STATUS) as [->|N1]; [reflexivity|].
  destruct (Z.eqb_spec x SOFT_RESET) as [->|N2]; [reflexivity|].
  destruct (Z.eqb_spec x HID_REQ_GET_REPORT) as [E|_]; [contradiction|].
  destruct (Z.eqb_spec x HID_REQ_GET_IDLE) as [E|_]; [contradiction|].
  reflexivity.
Qed.

(** ** C7 *)

(** C7.  For every standard GET_DESCRIPTOR request (with a 16-bit
    [wValue]), the descriptor type the logger acts on is the high byte of
    [wValue] and the low byte, the index, plays no part: after the two
    first lines and the request line comes what the descriptor switch
    gives for the high byte.  For each of the nineteen [USB_DT_*] values
    (0x01 to 0x11, 0x24, 0x30) that is the line [desc = ] with the name of
    the type, for the three [HID_DT_*] values (0x21, 0x22, 0x23) the line
    [descriptor = ] with the name, and for every other high byte the
    unknown line with the byte in hexadecimal.  The twenty-two case
    constants are all different. *)
Theorem get_descriptor_type_is_high_byte (ctrl : usb_ctrlrequest) :
  0 <= wValue ctrl < 2 ^ 16 ->
  Z.land (bRequestType ctrl) USB_TYPE_MASK = USB_TYPE_STANDARD ->
  bRequest ctrl = USB_REQ_GET_DESCRIPTOR ->
  let ty := wValue ctrl / 2 ^ 8 in
  let idx := wValue ctrl mod 2 ^ 8 in
  (0 <= ty < 2 ^ 8 /\ 0 <= idx < 2 ^ 8 /\ wValue ctrl = 2 ^ 8 * ty + idx)
  /\ map fst descriptor_arms =
     [ USB_DT_DEVICE; USB_DT_CONFIG; USB_DT_STRING; USB_DT_INTERFACE;
       USB_DT_ENDPOINT; USB_DT_DEVICE_QUALIFIER; USB_DT_OTHER_SPEED_CONFIG;
       USB_DT_INTERFACE_POWER; USB_DT_OTG; USB_DT_DEBUG;
       USB_DT_INTERFACE_ASSOCIATION; USB_DT_SECURITY; USB_DT_KEY;
       USB_DT_ENCRYPTION_TYPE; USB_DT_BOS; USB_DT_DEVICE_CAPABILITY;
       USB_DT_WIRELESS_ENDPOINT_COMP; USB_DT_PIPE_USAGE;
       USB_DT_SS_ENDPOINT_COMP; HID_DT_HID; HID_DT_REPORT; HID_DT_PHYSICAL ]
  /\ NoDup (map fst descriptor_arms)
  /\ exists d,
       log_control_request ctrl =
       [ request_line ctrl;
         ("  type = USB_TYPE_STANDARD" ++ nl)%string;
         ("  req = USB_REQ_GET_DESCRIPTOR" ++ nl)%string ] ++ d
       /\ (forall out, In (ty, out) descriptor_arms -> d = out)
       /\ (~ In ty (map fst descriptor_arms) ->
           d = [("  desc = unknown = 0x" ++ fmt_x ty ++ nl)%string])
       /\ (forall (v : Z) (text : string),
             In (v, text)
                [ (0x01, "  desc = USB_DT_DEVICE");
                  (0x02, "  desc = USB_DT_CONFIG");
                  (0x03, "  desc = USB_DT_STRING");
                  (0x04, "  desc = USB_DT_INTERFACE");
                  (0x05, "  desc = USB_DT_ENDPOINT");
                  (0x06, "  desc = USB_DT_DEVICE_QUALIFIER");
                  (0x07, "  desc = USB_DT_OTHER_SPEED_CONFIG");
                  (0x08, "  desc = USB_DT_INTERFACE_POWER");
                  (0x09, "  desc = USB_DT_OTG");
                  (0x0a, "  desc = USB_DT_DEBUG");
                  (0x0b, "  desc = USB_DT_INTERFACE_ASSOCIATION");
                  (0x0c, "  desc = USB_DT_SECURITY");
                  (0x0d, "  desc = USB_DT_KEY");
                  (0x0e, "  desc = USB_DT_ENCRYPTION_TYPE");
                  (0x0f, "  desc = USB_DT_BOS");
                  (0x10, "  desc = USB_DT_DEVICE_CAPABILITY");
                  (0x11, "  desc = USB_DT_WIRELESS_ENDPOINT_COMP");
                  (0x24, "  desc = USB_DT_PIPE_USAGE");
                  (0x30, "  desc = USB_DT_SS_ENDPOINT_COMP");
                  (0x21, "  descriptor = HID_DT_HID");
                  (0x22, "  descriptor = HID_DT_REPORT");
                  (0x23, "  descriptor = HID_DT_PHYSICAL") ] ->
             ty = v -> d = [(text ++ nl)%string])
       /\ (~ In ty [ 0x01; 0x02; 0x03; 0x04; 0x05; 0x06; 0x07; 0x08; 0x09;
                     0x0a; 0x0b; 0x0c; 0x0d; 0x0e; 0x0f; 0x10; 0x11; 0x24;
                     0x30; 0x21; 0x22; 0x23 ] ->
           d = [("  desc = unknown = 0x" ++ fmt_x ty ++ nl)%string]).
Proof.
  intros Hv Ht Hr ty idx.
  assert (Hnd : NoDup (map fst descriptor_arms)).
  { cbn. repeat constructor; cbn; intuition discriminate. }
  split.
  { subst ty idx. repeat split.
    - apply Z.div_pos; lia.
    - apply Z.div_lt_upper_bound; lia.
    - apply Z.mod_pos_bound; lia.
    - apply Z.mod_pos_bound; lia.
    - apply Z.div_mod; lia. }
  split; [reflexivity|]. split; [exact Hnd|].
  assert (Hunk : ~ In ty (map fst descriptor_arms) ->
                 switch ty descriptor_arms (descriptor_default ctrl)
                 = [("  desc = unknown = 0x" ++ fmt_x ty ++ nl)%string]).
  { intros Hn. rewrite (switch_no_arm _ _ _ Hn).
    unfold descriptor_default. rewrite Z.shiftr_div_pow2 by lia. reflexivity. }
  exists (switch ty descriptor_arms (descriptor_default ctrl)).
  split; [|split; [|split; [|split]]].
  - rewrite (log_standard_request ctrl Ht), Hr.
    unfold standard_arms. cbn [switch]. rewrite Z.eqb_refl.
    rewrite Z.shiftr_div_pow2 by lia. reflexivity.
  - intros out Hin. now apply switch_arm.
  - exact Hunk.
  - intros v text Hin E. rewrite E. clear -Hin.
    cbn [In] in Hin.
    repeat (destruct Hin as [H|Hin]; [injection H as <- <-; reflexivity|]).
    contradiction.
  - intros Hn. apply Hunk. exact Hn.
Qed.

(* ===================================================================== *)
(** * Properties of the declarations *)

(** ** Values read from memory *)

Lemma u8_range (b : byte) : 0 <= u8 b < 256.
Proof.
  unfold u8. pose proof (Byte.to_N_bounded b) as H.
  split; [apply N2Z.is_nonneg|]. lia.
Qed.

Lemma le_value_range (bs : list byte) :
  0 <= le_value bs < 256 ^ Z.of_nat (length bs).
Proof.
  induction bs as [|b bs IH]; [cbn; lia|].
  cbn [le_value length]. rewrite Nat2Z.inj_succ, Z.pow_succ_r by lia.
  pose proof (u8_range b). lia.
Qed.

Lemma load_inside (mem : list byte) (off n : nat) :
  (off + n <= length mem)%nat ->
  exists v, load mem off n = Some v /\ 0 <= v < 256 ^ Z.of_nat n.
Proof.
  intros H. unfold load.
  destruct (Nat.leb_spec (off + n) (length mem)) as [_|C]; [|lia].
  eexists. split; [reflexivity|].
  pose proof (le_value_range (firstn n (skipn off mem))) as R.
  rewrite length_firstn, length_skipn in R.
  replace (Nat.min n (length mem - off)) with n in R by lia. exact R.
Qed.

Lemma one_bit_field (v : Z) (k : Z) :
  0 <= k -> one_bit (Z.land (Z.shiftr v k) (Z.ones 1)).
Proof.
  intros Hk. rewrite Z.land_ones by lia. unfold one_bit.
  change (2 ^ 1) with 2.
  pose proof (Z.mod_pos_bound (Z.shiftr v k) 2). lia.
Qed.

(** ** C8 *)

(** C8.  An event record is laid out as [struct usb_raw_event] says: the
    32-bit type tag in bytes 0 to 3, the 32-bit payload length in bytes 4
    to 7, and the payload from byte 8 on, so that a record made of a tag,
    a length and [length] payload bytes is read back as exactly these;
    fewer than 8 bytes hold no event.  The setup packet is 8 bytes
    ([bRequestType], [bRequest], [wValue], [wIndex], [wLength] at bytes 0,
    1, 2, 4, 6), and [log_event] reads the start of a control event's
    payload as this packet. *)
Theorem event_record_wire_shape (t0 t1 t2 t3 n0 n1 n2 n3 : byte)
    (payload : list byte) :
  let ty := le_value [t0; t1; t2; t3] in
  let len := le_value [n0; n1; n2; n3] in
  member_table struct_usb_raw_event =
    [ ("type", (0, 4)); ("length", (4, 4)); ("data", (8, 0)) ]%nat
  /\ sizeof struct_usb_raw_event = 8%nat
  /\ (0 <= ty < 2 ^ 32 /\ 0 <= len < 2 ^ 32)
  /\ event_at ([t0; t1; t2; t3; n0; n1; n2; n3] ++ payload)
     = Some (mk_event ty len payload)
  /\ (len = Z.of_nat (length payload) ->
      exists e, event_at ([t0; t1; t2; t3; n0; n1; n2; n3] ++ payload) = Some e
                /\ Z.of_nat (length (event_data e)) = event_length e)
  /\ (forall short : list byte,
        (length short < 8)%nat -> event_at short = None)
  /\ member_table struct_usb_ctrlrequest =
       [ ("bRequestType", (0, 1)); ("bRequest", (1, 1)); ("wValue", (2, 2));
         ("wIndex", (4, 2)); ("wLength", (6, 2)) ]%nat
  /\ sizeof struct_usb_ctrlrequest = 8%nat
  /\ (forall rt rq v0 v1 i0 i1 l0 l1 rest,
        ty = USB_RAW_EVENT_CONTROL ->
        payload = [rt; rq; v0; v1; i0; i1; l0; l1] ++ rest ->
        log_event (mk_event ty len payload) =
        Done (("event: control, length: " ++ fmt_u len ++ nl)%string
              :: log_control_request
                   (mk_ctrlrequest (u8 rt) (u8 rq)
                      (u8 v0 + 256 * u8 v1) (u8 i0 + 256 * u8 i1)
                      (u8 l0 + 256 * u8 l1)))).
Proof.
  intros ty len.
  assert (Hev : event_at ([t0; t1; t2; t3; n0; n1; n2; n3] ++ payload)
                = Some (mk_event ty len payload)) by reflexivity.
  split; [reflexivity|]. split; [reflexivity|]. split.
  { split; [apply (le_value_range [t0; t1; t2; t3])
           | apply (le_value_range [n0; n1; n2; n3])]. }
  split; [exact Hev|]. split.
  { intros E. eexists. split; [exact Hev|].
    cbn [event_data event_length]. symmetry. exact E. }
  split.
  { intros short H.
    do 8 (destruct short as [|? short]; [reflexivity|]). cbn in H. lia. }
  split; [reflexivity|]. split; [reflexivity|].
  intros rt rq v0 v1 i0 i1 l0 l1 rest Hty ->.
  unfold log_event. cbn [event_type event_length event_data].
  rewrite Hty. cbn [switch]. 
  change (USB_RAW_EVENT_CONTROL =? USB_RAW_EVENT_CONNECT) with false.
  change (USB_RAW_EVENT_CONTROL =? USB_RAW_EVENT_CONTROL) with true.
  cbv iota. cbn [app]. rewrite ctrl_at_bytes.
  cbn [le_value]. rewrite !Z.mul_0_r, !Z.add_0_r. reflexivity.
Qed.

(** ** C9 *)

Lemma length_sub (mem : list byte) (off n : nat) :
  (off + n <= length mem)%nat -> length (firstn n (skipn off mem)) = n.
Proof. intros H. rewrite length_firstn, length_skipn. lia. Qed.

(** The six flags are bits 0 to 5 of the first 32-bit word of the struct. *)
Lemma ep_caps_at_word (mem : list byte) (w : Z) :
  load mem 0 4 = Some w ->
  ep_caps_at mem =
  Some (mk_ep_caps (Z.land (Z.shiftr w 0) (Z.ones 1))
                   (Z.land (Z.shiftr w 1) (Z.ones 1))
                   (Z.land (Z.shiftr w 2) (Z.ones 1))
                   (Z.land (Z.shiftr w 3) (Z.ones 1))
                   (Z.land (Z.shiftr w 4) (Z.ones 1))
                   (Z.land (Z.shiftr w 5) (Z.ones 1))).
Proof.
  intros H.
  assert (E : forall (k : nat) (nm : string),
            find_member nm (layout struct_usb_raw_ep_caps)
            = Some (k, Bits U32 1) -> (k < 32)%nat ->
            field struct_usb_raw_ep_caps nm mem
            = Some (Z.land (Z.shiftr w (Z.of_nat k)) (Z.ones 1))).
  { intros k nm Hf Hk. unfold field. rewrite Hf.
    change (8 * sizeof U32)%nat with 32%nat.
    rewrite Nat.div_small, Nat.mod_small by exact Hk.
    change (0 * sizeof U32)%nat with 0%nat. change (sizeof U32) with 4%nat.
    rewrite H. reflexivity. }
  unfold ep_caps_at.
  rewrite (E 0%nat "type_control" eq_refl), (E 1%nat "type_iso" eq_refl),
    (E 2%nat "type_bulk" eq_refl), (E 3%nat "type_int" eq_refl),
    (E 4%nat "dir_in" eq_refl), (E 5%nat "dir_out" eq_refl) by lia.
  reflexivity.
Qed.

Lemma ep_limits_members (mem : list byte) :
  field struct_usb_raw_ep_limits "maxpacket_limit" mem = load mem 0 2
  /\ field struct_usb_raw_ep_limits "max_streams" mem = load mem 2 2
  /\ field struct_usb_raw_ep_limits "reserved" mem = load mem 4 4.
Proof. repeat split; reflexivity. Qed.

Lemma ep_limits_at_words (mem : list byte) (mp ms r : Z) :
  load mem 0 2 = Some mp -> load mem 2 2 = Some ms -> load mem 4 4 = Some r ->
  ep_limits_at mem = Some (mk_ep_limits mp ms r).
Proof.
  intros H1 H2 H3. unfold ep_limits_at.
  destruct (ep_limits_members mem) as (-> & -> & ->).
  rewrite H1, H2, H3. reflexivity.
Qed.

(** Where the members of an entry are. *)
Lemma ep_info_members (mem : list byte) :
  member_bytes struct_usb_raw_ep_info "name" mem
  = (if (0 + 16 <=? length mem)%nat
     then Some (firstn 16 (skipn 0 mem)) else None)
  /\ field struct_usb_raw_ep_info "addr" mem = load mem 16 4
  /\ member_bytes struct_usb_raw_ep_info "caps" mem
     = (if (20 + 4 <=? length mem)%nat
        then Some (firstn 4 (skipn 20 mem)) else None)
  /\ member_bytes struct_usb_raw_ep_info "limits" mem
     = (if (24 + 8 <=? length mem)%nat
        then Some (firstn 8 (skipn 24 mem)) else None).
Proof. repeat split; reflexivity. Qed.

Lemma ep_info_at_parts (mem : list byte) :
  (sizeof struct_usb_raw_ep_info <= length mem)%nat ->
  ep_info_at mem =
  match load mem 16 4,
        ep_caps_at (firstn 4 (skipn 20 mem)),
        ep_limits_at (firstn 8 (skipn 24 mem)) with
  | Some a, Some c, Some l => Some (mk_ep_info (firstn 16 mem) a c l)
  | _, _, _ => None
  end.
Proof.
  change (sizeof struct_usb_raw_ep_info) with 32%nat. intros H.
  unfold ep_info_at.
  destruct (ep_info_members mem) as (-> & -> & -> & ->).
  destruct (Nat.leb_spec (0 + 16) (length mem)); [|lia].
  destruct (Nat.leb_spec (20 + 4) (length mem)); [|lia].
  destruct (Nat.leb_spec (24 + 8) (length mem)); [|lia].
  change (skipn 0 mem) with mem.
  destruct (load mem 16 4); reflexivity.
Qed.

Lemma ep_info_at_defined (mem : list byte) :
  length mem = sizeof struct_usb_raw_ep_info ->
  exists ep, ep_info_at mem = Some ep /\ ep_info_shape ep.
Proof.
  intros H. rewrite ep_info_at_parts by lia.
  change (sizeof struct_usb_raw_ep_info) with 32%nat in H.
  destruct (load_inside mem 16 4) as (a & -> & Ra); [lia|].
  set (cm := firstn 4 (skipn 20 mem)).
  set (lm := firstn 8 (skipn 24 mem)).
  assert (Lc : length cm = 4%nat) by (apply length_sub; lia).
  assert (Ll : length lm = 8%nat) by (apply length_sub; lia).
  destruct (load_inside cm 0 4) as (w & Hw & _); [lia|].
  destruct (load_inside lm 0 2) as (mp & Hmp & Rmp); [lia|].
  destruct (load_inside lm 2 2) as (ms & Hms & Rms); [lia|].
  destruct (load_inside lm 4 4) as (r & Hr & Rr); [lia|].
  rewrite (ep_caps_at_word cm Hw), (ep_limits_at_words lm Hmp Hms Hr).
  eexists. split; [reflexivity|].
  unfold ep_info_shape.
  cbn [name addr caps limits type_control type_iso type_bulk type_int
       dir_in dir_out maxpacket_limit max_streams reserved].
  split; [rewrite length_firstn; unfold USB_RAW_EP_NAME_MAX; lia|].
  split; [exact Ra|].
  split; [repeat split; apply one_bit_field; lia|].
  repeat split; lia.
Qed.

Lemma array_at_defined {A : Type} (elt_at : list byte -> option A)
    (P : A -> Prop) (size n : nat) :
  (forall m, length m = size -> exists x, elt_at m = Some x /\ P x) ->
  forall mem, length mem = (n * size)%nat ->
  exists l, array_at elt_at size n mem = Some l
            /\ length l = n /\ Forall P l.
Proof.
  intros He. induction n as [|n IH]; intros mem Hm.
  - exists []. repeat split; constructor.
  - cbn [array_at].
    destruct (He (firstn size mem)) as (x & -> & Px).
    { rewrite length_firstn. cbn in Hm. lia. }
    destruct (IH (skipn size mem)) as (l & -> & Ll & Pl).
    { rewrite length_skipn. cbn in Hm. lia. }
    exists (x :: l). repeat split; [cbn; lia | now constructor].
Qed.

(** C9.  The object the endpoint query fills, a
    [struct usb_raw_eps_info], is a table of exactly
    [USB_RAW_EPS_NUM_MAX = 30] entries of 32 bytes.  An entry has the four
    members [name], [addr], [caps] and [limits]: a name array of
    [USB_RAW_EP_NAME_MAX = 16] bytes, a 32-bit address, the six one-bit
    flags [type_control], [type_iso], [type_bulk], [type_int], [dir_in],
    [dir_out] (bits 0 to 5 of one 32-bit word), and the limits
    [maxpacket_limit] and [max_streams] of 16 bits each, followed by a
    reserved 32-bit word.  Every object of the struct's size reads as such
    a table. *)
Theorem eps_info_table_shape (mem : list byte) :
  length mem = sizeof struct_usb_raw_eps_info ->
  (USB_RAW_EPS_NUM_MAX = 30 /\ USB_RAW_EP_NAME_MAX = 16)%nat
  /\ member_table struct_usb_raw_eps_info = [ ("eps", (0, 30 * 32)) ]%nat
  /\ member_table struct_usb_raw_ep_info =
       [ ("name", (0, 16)); ("addr", (16, 4)); ("caps", (20, 4));
         ("limits", (24, 8)) ]%nat
  /\ layout struct_usb_raw_ep_caps =
       [ ("type_control", (0, Bits U32 1)); ("type_iso", (1, Bits U32 1));
         ("type_bulk", (2, Bits U32 1)); ("type_int", (3, Bits U32 1));
         ("dir_in", (4, Bits U32 1)); ("dir_out", (5, Bits U32 1)) ]%nat
  /\ member_table struct_usb_raw_ep_limits =
       [ ("maxpacket_limit", (0, 2)); ("max_streams", (2, 2));
         ("reserved", (4, 4)) ]%nat
  /\ exists table,
       eps_info_at mem = Some table
       /\ length (eps table) = USB_RAW_EPS_NUM_MAX
       /\ Forall ep_info_shape (eps table).
Proof.
  intros H.
  split; [split; reflexivity|].
  split; [reflexivity|]. split; [reflexivity|].
  split; [reflexivity|]. split; [reflexivity|].
  change (sizeof struct_usb_raw_eps_info) with (30 * 32)%nat in H.
  unfold eps_info_at.
  replace (member_bytes struct_usb_raw_eps_info "eps" mem)
    with (if (0 + 960 <=? length mem)%nat
          then Some (firstn 960 (skipn 0 mem)) else None) by reflexivity.
  change (sizeof struct_usb_raw_ep_info) with 32%nat.
  change USB_RAW_EPS_NUM_MAX with 30%nat.
  change (skipn 0 mem) with mem.
  destruct (Nat.leb_spec (0 + 960) (length mem)) as [_|C]; [|cbn in H; lia].
  destruct (@array_at_defined _ ep_info_at ep_info_shape 32 30)
    with (mem := firstn 960 mem) as (l & El & Ll & Pl).
  - intros m Hm. apply ep_info_at_defined. exact Hm.
  - rewrite length_firstn. cbn in H. lia.
  - rewrite El. exists (mk_eps_info l). repeat split; assumption.
Qed.

(* ===================================================================== *)
(** * Concrete runs *)

(** [usb_raw_run] on a kernel that refuses the request: the process exits
    with [EXIT_FAILURE] after the [perror] line. *)
Lemma fatal_wrapper_exits_or_returns_witness :
  invoke sample_open sample_ioctl sample_strerror (call_run 3) (mkProc 0 [])
  = Exits EXIT_FAILURE
      (mkProc 22 [("ioctl(USB_RAW_IOCTL_RUN): Invalid argument" ++ nl)%string]).
Proof.
  destruct (@fatal_wrapper_exits_or_returns Z sample_open sample_ioctl
              sample_strerror (call_run 3)
              (sample_ioctl 3 USB_RAW_IOCTL_RUN (ArgInt 0))
              (mkProc 0 []) (-1) 22 eq_refl eq_refl eq_refl) as [H _].
  destruct (H eq_refl) as [E _]. exact E.
Defined.

(** [usb_raw_ep_write_may_fail] on a kernel that refuses the write: the
    failure comes back to the caller. *)
Lemma ep_write_may_fail_only_nonfatal_witness :
  invoke sample_open sample_ioctl sample_strerror
    (call_ep_write_may_fail 3 4096) (mkProc 0 [])
  = Returns (Some (-1)) (mkProc 22 []).
Proof.
  destruct (@ep_write_may_fail_only_nonfatal Z sample_open sample_ioctl
              sample_strerror (call_ep_write_may_fail 3 4096)
              (sample_ioctl 3 USB_RAW_IOCTL_EP_WRITE (ArgPtr 4096))
              (mkProc 0 []) (-1) 22 eq_refl eq_refl) as [H _].
  exact (H eq_refl).
Defined.

(** [usb_raw_init] with the names of the dummy controller. *)
Lemma usb_raw_init_passes_names_witness :
  let driver := list_byte_of_string "dummy_udc" ++ [x00] in
  let device := list_byte_of_string "dummy_udc.0" ++ [x00] in
  fits_name driver && fits_name device = true
  /\ exists arg,
       init_arg USB_SPEED_HIGH driver device = Some arg
       /\ cells_str (driver_name arg)
          = Some (list_byte_of_string "dummy_udc")
       /\ cells_str (device_name arg)
          = Some (list_byte_of_string "dummy_udc.0")
       /\ speed arg = 3.
Proof.
  intros driver device. split; [reflexivity|].
  destruct (@usb_raw_init_passes_names Z sample_ioctl sample_strerror 3
              USB_SPEED_HIGH driver device (mkProc 0 [])) as [H _].
  destruct (H eq_refl) as (arg & Ea & _ & _ & Ed & _ & Ev & _ & Es & _).
  exists arg. repeat split; assumption.
Defined.

(** An event whose tag is [USB_RAW_EVENT_INVALID]. *)
Lemma log_event_total_over_type_witness :
  log_event (mk_event USB_RAW_EVENT_INVALID 0 [])
  = Done [("event: 0 (unknown), length: 0" ++ nl)%string].
Proof.
  destruct (log_event_total_over_type (mk_event USB_RAW_EVENT_INVALID 0 []))
    as (_ & _ & _ & _ & _ & _ & H).
  refine (proj1 (H _)). cbn. intuition discriminate.
Defined.

(** Two control events that declare the eight bytes of the setup packet
    and differ in the byte that follows them. *)
Lemma log_event_within_declared_length_witness :
  let e1 := mk_event USB_RAW_EVENT_CONTROL 8
              [x80; x06; x00; x01; x00; x00; x12; x00; xff] in
  let e2 := mk_event USB_RAW_EVENT_CONTROL 8
              [x80; x06; x00; x01; x00; x00; x12; x00; x00] in
  event_type e1 = event_type e2
  /\ event_length e1 = event_length e2
  /\ firstn (Z.to_nat (event_length e1)) (event_data e1)
     = firstn (Z.to_nat (event_length e2)) (event_data e2)
  /\ log_event e1 = log_event e2
  /\ exists out, log_event e1 = Done out.
Proof.
  intros e1 e2.
  destruct (log_event_within_declared_length e1 e2 eq_refl eq_refl) as [_ H].
  repeat split; try reflexivity;
    apply H; try reflexivity; intros _; split; [discriminate | cbn; lia].
Defined.

(** GET_DESCRIPTOR for string descriptor 2: type 3 in the high byte. *)
Lemma get_descriptor_type_is_high_byte_witness :
  let ctrl := mk_ctrlrequest 0x80 USB_REQ_GET_DESCRIPTOR 0x0302 0x0409 255 in
  exists d,
    log_control_request ctrl =
    [ request_line ctrl;
      ("  type = USB_TYPE_STANDARD" ++ nl)%string;
      ("  req = USB_REQ_GET_DESCRIPTOR" ++ nl)%string ] ++ d
    /\ d = [("  desc = USB_DT_STRING" ++ nl)%string].
Proof.
  intros ctrl.
  destruct (get_descriptor_type_is_high_byte ctrl)
    as (_ & _ & _ & d & E & _ & _ & H & _);
    [cbn; lia | reflexivity | reflexivity |].
  exists d. split; [exact E|].
  apply (H 0x03 "  desc = USB_DT_STRING"); [|reflexivity].
  cbn. auto 10.
Defined.

(** A control event on the wire: tag 2, length 8, the setup packet. *)
Lemma event_record_wire_shape_witness :
  event_at [x02; x00; x00; x00; x08; x00; x00; x00;
            x80; x06; x00; x01; x00; x00; x12; x00]
  = Some (mk_event USB_RAW_EVENT_CONTROL 8
            [x80; x06; x00; x01; x00; x00; x12; x00]).
Proof.
  destruct (event_record_wire_shape x02 x00 x00 x00 x08 x00 x00 x00
              [x80; x06; x00; x01; x00; x00; x12; x00])
    as (_ & _ & _ & H & _).
  exact H.
Defined.

(** A zeroed [struct usb_raw_eps_info]. *)
Lemma eps_info_table_shape_witness :
  length (repeat x00 960) = sizeof struct_usb_raw_eps_info
  /\ exists table,
       eps_info_at (repeat x00 960) = Some table
       /\ length (eps table) = USB_RAW_EPS_NUM_MAX
       /\ Forall ep_info_shape (eps table).
Proof.
  split; [reflexivity|].
  destruct (eps_info_table_shape (repeat x00 960) eq_refl)
    as (_ & _ & _ & _ & _ & H).
  exact H.
Defined.

(* ===================================================================== *)
(** * Further properties of the transport wrappers *)

(** ** Strings with their terminator *)

Lemma strlen_terminated (s junk : list byte) :
  nul_free s = true -> strlen (s ++ x00 :: junk) = Some (length s).
Proof.
  induction s as [|b s IH]; cbn; intros H; [reflexivity|].
  apply andb_true_iff in H as [Hb Hs].
  apply negb_true_iff in Hb. rewrite Hb, (IH Hs). reflexivity.
Qed.

Lemma strlen_unterminated (s : list byte) :
  nul_free s = true -> strlen s = None.
Proof.
  induction s as [|b s IH]; cbn; intros H; [reflexivity|].
  apply andb_true_iff in H as [Hb Hs].
  apply negb_true_iff in Hb. rewrite Hb, (IH Hs). reflexivity.
Qed.

Lemma firstn_terminated (s junk : list byte) :
  firstn (S (length s)) (s ++ x00 :: junk) = s ++ [x00].
Proof.
  induction s as [|b s IH]; [reflexivity|].
  cbn [length app]. rewrite firstn_cons, IH. reflexivity.
Qed.

Lemma skipn_repeat {A : Type} (x : A) (k n : nat) :
  skipn k (repeat x n) = repeat x (n - k).
Proof.
  revert k. induction n as [|n IH]; intros [|k]; cbn; auto.
Qed.

(** [strcpy] of a terminated name into a fresh array: the name and its
    NUL, then cells that stay unwritten; nothing past the NUL is copied. *)
Lemma strcpy_terminated (s junk : list byte) :
  nul_free s = true ->
  strcpy (repeat None UDC_NAME_LENGTH_MAX) (s ++ x00 :: junk) =
  if (length s <? UDC_NAME_LENGTH_MAX)%nat
  then Some (map Some (s ++ [x00])
             ++ repeat None (UDC_NAME_LENGTH_MAX - S (length s)))
  else None.
Proof.
  intros H. unfold strcpy. rewrite (strlen_terminated s junk H).
  rewrite repeat_length, firstn_terminated, skipn_repeat.
  change (S (length s) <=? UDC_NAME_LENGTH_MAX)%nat
    with (length s <? UDC_NAME_LENGTH_MAX)%nat.
  reflexivity.
Qed.

Section TransportMore.

Variable Env : Type.
Variable sys_open : string -> Z -> Env -> Z * Env.
Variable sys_ioctl : Z -> usb_raw_ioctl -> ioctl_arg -> Env -> Z * Env.
Variable strerror_errno : Env -> string.

Lemma init_arg_none spd driver device :
  init_arg spd driver device = None ->
  fits_name driver && fits_name device = false.
Proof.
  assert (Hlen : length (repeat (@None byte) UDC_NAME_LENGTH_MAX)
                 = UDC_NAME_LENGTH_MAX) by apply repeat_length.
  unfold init_arg. intros H.
  destruct (fits_name driver) eqn:Hd; [|reflexivity].
  destruct (fits_name device) eqn:Hv; [|reflexivity].
  destruct (strcpy_fits _ driver Hlen Hd) as (dn & Edn & _).
  destruct (strcpy_fits _ device Hlen Hv) as (vn & Evn & _).
  rewrite Edn, Evn in H. discriminate H.
Qed.

(** X1.  What a caller can rely on after any wrapper call, without
    knowing what the kernel did.  If the call returns, nothing was written
    to the error stream, and for a fatal wrapper a returned value is never
    negative.  If the process exits, the wrapper is a fatal one, the
    status is [EXIT_FAILURE] and exactly one line, the wrapper's own
    diagnostic, was added to the error stream.  The behaviour is undefined
    only for [usb_raw_init] with a name that does not fit. *)
Theorem wrapper_postconditions (c : transport_call) (p : Proc Env) :
  match invoke sys_open sys_ioctl strerror_errno c p with
  | Returns r p' =>
      stderr p' = stderr p
      /\ (fatal c = true -> forall v, r = Some v -> 0 <= v)
  | Exits status p' =>
      fatal c = true /\ status = EXIT_FAILURE
      /\ stderr p' = stderr p ++ [perror_line strerror_errno (diagnostic c) (env p')]
  | Undefined =>
      exists fd spd driver device,
        c = call_init fd spd driver device
        /\ fits_name driver && fits_name device = false
  end.
Proof.
  destruct (kernel_call sys_open sys_ioctl c) as [k|] eqn:Hk.
  - destruct (fatal c) eqn:Hf.
    + rewrite (@invoke_fatal_checked Env sys_open sys_ioctl strerror_errno
                 c k p Hf Hk).
      unfold checked. destruct (k (env p)) as [rv e].
      destruct (Z.ltb_spec rv 0) as [Hneg|Hpos].
      * repeat split.
      * split; [reflexivity|]. intros _ v Hv.
        destruct c; cbn in Hv; try discriminate Hv; injection Hv as <-;
          exact Hpos.
    + destruct c; try discriminate Hf. cbn in Hk. injection Hk as <-.
      cbn. rewrite ep_write_may_fail_run. split; [reflexivity|].
      intros H. discriminate H.
  - destruct c; cbn in Hk; try discriminate Hk.
    destruct (init_arg _ driver device) as [a|] eqn:E; [discriminate Hk|].
    cbn -[usb_raw_init]. rewrite usb_raw_init_run, E.
    eauto 8 using init_arg_none.
Qed.

(** X2.  [usb_raw_ep_write] is [usb_raw_ep_write_may_fail] followed by
    the test of the result: where the may-fail variant returns a value
    that is not negative, the fatal one returns the same value in the same
    state; where it returns a negative value, the fatal one exits with
    [EXIT_FAILURE] in that state plus the [perror] line. *)
Theorem ep_write_checks_may_fail (fd io : Z) (p : Proc Env) :
  exists rv p',
    usb_raw_ep_write_may_fail sys_ioctl fd io p = Returns rv p'
    /\ usb_raw_ep_write sys_ioctl strerror_errno fd io p =
       if rv <? 0
       then Exits EXIT_FAILURE
              (mkProc (env p')
                 (stderr p' ++ [perror_line strerror_errno "ioctl(USB_RAW_IOCTL_EP_WRITE)"
                                            (env p')]))
       else Returns rv p'.
Proof.
  unfold usb_raw_ep_write, usb_raw_ep_write_may_fail,
    ioctl.
  cbn. destruct (sys_ioctl fd USB_RAW_IOCTL_EP_WRITE (ArgPtr io) (env p))
    as [rv e].
  do 2 eexists. split; [reflexivity|].
  destruct (rv <? 0); reflexivity.
Qed.

(** X3.  What [usb_raw_init] hands to the kernel for two terminated
    names of fewer than [UDC_NAME_LENGTH_MAX] characters: each array holds
    the name and its NUL and, after them, cells that were never written
    (the struct is not cleared first); bytes that follow the NUL in the
    caller's object are not copied; the speed is the enum value. *)
Theorem usb_raw_init_struct_contents (fd : Z) (spd : usb_device_speed)
    (dname djunk vname vjunk : list byte) (p : Proc Env) :
  nul_free dname = true -> nul_free vname = true ->
  (length dname < UDC_NAME_LENGTH_MAX)%nat ->
  (length vname < UDC_NAME_LENGTH_MAX)%nat ->
  usb_raw_init sys_ioctl strerror_errno fd spd
    (dname ++ x00 :: djunk) (vname ++ x00 :: vjunk) p =
  match checked strerror_errno "ioctl(USB_RAW_IOCTL_INIT)"
          (sys_ioctl fd USB_RAW_IOCTL_INIT
             (ArgInit
                (mk_usb_raw_init
                   (map Some (dname ++ [x00])
                    ++ repeat None (UDC_NAME_LENGTH_MAX - S (length dname)))
                   (map Some (vname ++ [x00])
                    ++ repeat None (UDC_NAME_LENGTH_MAX - S (length vname)))
                   (speed_value spd)))) p with
  | Returns _ p' => Returns tt p'
  | Exits s p' => Exits s p'
  | Undefined => Undefined
  end.
Proof.
  intros Hd Hv Ld Lv. rewrite usb_raw_init_run. unfold init_arg.
  rewrite (strcpy_terminated dname djunk Hd), (strcpy_terminated vname vjunk Hv).
  apply Nat.ltb_lt in Ld, Lv. rewrite Ld, Lv.
  replace (to_u8 (speed_value spd)) with (speed_value spd)
    by (destruct spd; reflexivity).
  reflexivity.
Qed.

(** X4.  The longest name [usb_raw_init] can take has
    [UDC_NAME_LENGTH_MAX - 1 = 127] characters: with two terminated names
    the call is undefined exactly when one of them has 128 characters or
    more, and it is undefined for a driver name with no terminator in its
    object. *)
Theorem usb_raw_init_name_limit (fd : Z) (spd : usb_device_speed)
    (dname djunk vname vjunk : list byte) (p : Proc Env) :
  nul_free dname = true -> nul_free vname = true ->
  (usb_raw_init sys_ioctl strerror_errno fd spd
     (dname ++ x00 :: djunk) (vname ++ x00 :: vjunk) p
   = Undefined
   <-> (UDC_NAME_LENGTH_MAX <= length dname
        \/ UDC_NAME_LENGTH_MAX <= length vname)%nat)
  /\ usb_raw_init sys_ioctl strerror_errno fd spd dname
       (vname ++ x00 :: vjunk) p = Undefined.
Proof.
  intros Hd Hv. split.
  - rewrite usb_raw_init_run. unfold init_arg.
    rewrite (strcpy_terminated dname djunk Hd),
      (strcpy_terminated vname vjunk Hv).
    destruct (Nat.ltb_spec (length dname) UDC_NAME_LENGTH_MAX) as [Ld|Ld];
      destruct (Nat.ltb_spec (length vname) UDC_NAME_LENGTH_MAX) as [Lv|Lv];
      split; intros H; try reflexivity; try lia; try (left; lia);
      try (right; lia).
    unfold checked in H.
    destruct (sys_ioctl _ _ _ _) as [rv e]. destruct (rv <? 0); discriminate H.
  - rewrite usb_raw_init_run. unfold init_arg, strcpy.
    rewrite (strlen_unterminated dname Hd). reflexivity.
Qed.

End TransportMore.

(* ===================================================================== *)
(** * Further properties of the loggers *)

(** The masked request type is one of the four type values. *)
Lemma type_mask_cases (a : Z) :
  Z.land a USB_TYPE_MASK = USB_TYPE_STANDARD
  \/ Z.land a USB_TYPE_MASK = USB_TYPE_CLASS
  \/ Z.land a USB_TYPE_MASK = USB_TYPE_VENDOR
  \/ Z.land a USB_TYPE_MASK = USB_TYPE_RESERVED.
Proof.
  rewrite type_mask_bits.
  destruct (Z.testbit a 6), (Z.testbit a 5); cbn; auto.
Qed.

(** X5.  No request of vendor type is ever recognized: the second switch
    on the request type has arms for standard and class only, so whatever
    [bRequest] is, a request with bit 6 of [bRequestType] set is logged in
    three lines, the last one reporting the request as unknown. *)
Theorem vendor_requests_unknown (ctrl : usb_ctrlrequest) :
  Z.testbit (bRequestType ctrl) 6 = true ->
  log_control_request ctrl =
  [ request_line ctrl;
    if Z.testbit (bRequestType ctrl) 5
    then ("  type = unknown = " ++ fmt_d (bRequestType ctrl) ++ nl)%string
    else ("  type = USB_TYPE_VENDOR" ++ nl)%string;
    ("  req = unknown = 0x" ++ fmt_x (bRequest ctrl) ++ nl)%string ].
Proof.
  intros H6. unfold log_control_request.
  rewrite type_mask_bits, H6.
  destruct (Z.testbit (bRequestType ctrl) 5); reflexivity.
Qed.

(** X6.  Apart from its first line, the log of a request depends only on
    the type bits, on [bRequest] and on the high byte of [wValue]:
    direction, recipient, the low byte of [wValue] (the descriptor index),
    [wIndex] and [wLength] change nothing (for the reserved type the whole
    [bRequestType] is printed, so that case is left out). *)
Theorem classification_ignores_other_fields (c1 c2 : usb_ctrlrequest) :
  Z.land (bRequestType c1) USB_TYPE_MASK
  = Z.land (bRequestType c2) USB_TYPE_MASK ->
  Z.land (bRequestType c1) USB_TYPE_MASK <> USB_TYPE_RESERVED ->
  bRequest c1 = bRequest c2 ->
  Z.shiftr (wValue c1) 8 = Z.shiftr (wValue c2) 8 ->
  tl (log_control_request c1) = tl (log_control_request c2).
Proof.
  intros Ht Hr Hq Hv. unfold log_control_request. cbn [app tl].
  rewrite <- Ht.
  assert (Ed : request_default c1 = request_default c2)
    by (unfold request_default; now rewrite Hq).
  assert (Es : standard_arms c1 = standard_arms c2)
    by (unfold standard_arms, descriptor_default; now rewrite Hv).
  unfold request_arms. rewrite <- Ed, <- Es, <- Hq.
  f_equal.
  destruct (type_mask_cases (bRequestType c1)) as [E|[E|[E|E]]];
    try contradiction; rewrite E; reflexivity.
Qed.

(** ** Newlines *)

Lemma ends_nl_app (s t : string) :
  t <> EmptyString -> ends_nl (s ++ t) = ends_nl t.
Proof.
  intros Ht. induction s as [|c s IH]; [reflexivity|].
  cbn [append ends_nl]. rewrite IH.
  destruct (s ++ t)%string eqn:E; [|reflexivity].
  destruct s; cbn in E; [contradiction | discriminate].
Qed.

Lemma ends_nl_line (s : string) : ends_nl (s ++ nl) = true.
Proof. rewrite ends_nl_app by discriminate. reflexivity. Qed.

Lemma ends_nl_fmt (a : string) (f : string) (rest : string) :
  ends_nl rest = true -> ends_nl (a ++ f ++ rest) = true.
Proof.
  intros H.
  assert (N : rest <> EmptyString)
    by (destruct rest; [discriminate H | discriminate]).
  rewrite !ends_nl_app; auto.
  destruct f; cbn; [exact N | discriminate].
Qed.

Lemma switch_all {A : Type} (P : A -> Prop) (x : Z) (arms : list (arm A))
    (d : A) :
  Forall (fun a => P (snd a)) arms -> P d -> P (switch x arms d).
Proof.
  intros Ha Hd. induction Ha as [|[k a] arms Pa _ IH]; cbn; [exact Hd|].
  destruct (x =? k); [exact Pa | exact IH].
Qed.

(** Every [printf] of [log_control_request] ends its line. *)
Lemma log_control_request_lines (ctrl : usb_ctrlrequest) :
  Forall (fun s => ends_nl s = true) (log_control_request ctrl).
Proof.
  unfold log_control_request.
  assert (Hd : Forall (fun s => ends_nl s = true) (request_default ctrl)).
  { repeat constructor. cbn [request_default]. apply ends_nl_fmt, eq_refl. }
  apply Forall_app. split; [|apply Forall_app; split].
  - repeat constructor. unfold request_line.
    repeat (apply ends_nl_fmt). reflexivity.
  - apply switch_all.
    + repeat constructor.
    + repeat constructor. apply ends_nl_fmt, eq_refl.
  - apply switch_all; [|exact Hd].
    repeat constructor; cbn [snd]; (apply switch_all; [|exact Hd]).
    + repeat constructor; cbn [snd].
      apply switch_all; [repeat constructor|].
      repeat constructor. apply ends_nl_fmt, eq_refl.
    + repeat constructor.
Qed.

(** X7.  Which events end their line.  For suspend, resume, reset and
    disconnect the single [printf] has no newline at all, so whatever is
    printed next continues on the same line; for every other tag each
    [printf] made, by [log_event] or by [log_control_request], ends with a
    newline. *)
Theorem log_event_newlines (event : usb_raw_event) :
  if existsb (Z.eqb (event_type event))
       [ USB_RAW_EVENT_SUSPEND; USB_RAW_EVENT_RESUME; USB_RAW_EVENT_RESET;
         USB_RAW_EVENT_DISCONNECT ]
  then exists s, log_event event = Done [s] /\ has_nl s = false
  else Forall (fun s => ends_nl s = true) (printed (log_event event)).
Proof.
  unfold log_event. cbn [switch existsb].
  destruct (Z.eqb_spec (event_type event) USB_RAW_EVENT_SUSPEND) as [E|N3].
  { rewrite E. cbn. eauto. }
  destruct (Z.eqb_spec (event_type event) USB_RAW_EVENT_RESUME) as [E|N4].
  { rewrite E. cbn. eauto. }
  destruct (Z.eqb_spec (event_type event) USB_RAW_EVENT_RESET) as [E|N5].
  { rewrite E. cbn. eauto. }
  destruct (Z.eqb_spec (event_type event) USB_RAW_EVENT_DISCONNECT) as [E|N6].
  { rewrite E. cbn. eauto. }
  cbn [orb].
  destruct (event_type event =? USB_RAW_EVENT_CONNECT).
  { repeat constructor. apply ends_nl_fmt, eq_refl. }
  destruct (event_type event =? USB_RAW_EVENT_CONTROL).
  { destruct (ctrl_at (event_data event)); cbn [printed app].
    - constructor; [apply ends_nl_fmt, eq_refl|].
      apply log_control_request_lines.
    - repeat constructor. apply ends_nl_fmt, eq_refl. }
  repeat constructor. cbn [printed].
  apply (ends_nl_fmt "event: " (fmt_d (event_type event))).
  apply ends_nl_fmt, eq_refl.
Qed.

(** X8.  On the wire, the descriptor type of a standard GET_DESCRIPTOR
    request is the fourth byte of the setup packet and the third byte, the
    index, is not looked at: a control event whose data area starts with
    such a packet is logged in five parts, the last being what the
    descriptor switch gives for that byte. *)
Theorem get_descriptor_on_the_wire (len : Z)
    (rt rq v0 v1 i0 i1 l0 l1 : byte) (rest : list byte) :
  Z.land (u8 rt) USB_TYPE_MASK = USB_TYPE_STANDARD ->
  u8 rq = USB_REQ_GET_DESCRIPTOR ->
  exists line,
    log_event (mk_event USB_RAW_EVENT_CONTROL len
                 (rt :: rq :: v0 :: v1 :: i0 :: i1 :: l0 :: l1 :: rest)) =
    Done ([ ("event: control, length: " ++ fmt_u len ++ nl)%string;
            line;
            ("  type = USB_TYPE_STANDARD" ++ nl)%string;
            ("  req = USB_REQ_GET_DESCRIPTOR" ++ nl)%string ]
          ++ switch (u8 v1) descriptor_arms
               [("  desc = unknown = 0x" ++ fmt_x (u8 v1) ++ nl)%string]).
Proof.
  intros Ht Hq.
  set (ctrl := mk_ctrlrequest (le_value [rt]) (le_value [rq])
                 (le_value [v0; v1]) (le_value [i0; i1]) (le_value [l0; l1])).
  exists (request_line ctrl).
  unfold log_event. cbn [event_type event_length event_data switch].
  change (USB_RAW_EVENT_CONTROL =? USB_RAW_EVENT_CONNECT) with false.
  change (USB_RAW_EVENT_CONTROL =? USB_RAW_EVENT_CONTROL) with true.
  cbv iota. rewrite ctrl_at_bytes. fold ctrl.
  assert (Ert : bRequestType ctrl = u8 rt) by (cbn; lia).
  assert (Erq : bRequest ctrl = u8 rq) by (cbn; lia).
  assert (Ev : Z.shiftr (wValue ctrl) 8 = u8 v1).
  { cbn [ctrl wValue le_value]. rewrite Z.shiftr_div_pow2 by lia.
    pose proof (u8_range v0). change (2 ^ 8) with 256.
    rewrite Z.mul_0_r, Z.add_0_r.
    rewrite Z.add_comm, Z.mul_comm, Z.div_add_l, Z.div_small by lia. lia. }
  rewrite log_standard_request by (rewrite Ert; exact Ht).
  rewrite Erq, Hq. unfold standard_arms, descriptor_default.
  cbn [switch]. rewrite Z.eqb_refl, Ev. reflexivity.
Qed.

(** X9.  The only way [log_event] can read outside the object it is
    given: a control event whose data area is shorter than the setup
    packet.  Then the control line has been printed and nothing else; in
    every other case the run returns. *)
Theorem log_event_fault_iff (event : usb_raw_event) (out : output) :
  log_event event = Fault out
  <-> event_type event = USB_RAW_EVENT_CONTROL
      /\ (length (event_data event) < sizeof struct_usb_ctrlrequest)%nat
      /\ out = [("event: control, length: " ++ fmt_u (event_length event)
                 ++ nl)%string].
Proof.
  split.
  - intros H.
    destruct (Z.eq_dec (event_type event) USB_RAW_EVENT_CONTROL) as [E|N].
    + destruct (Nat.lt_ge_cases (length (event_data event))
                  (sizeof struct_usb_ctrlrequest)) as [L|L].
      * split; [exact E|]. split; [exact L|].
        unfold log_event in H. rewrite E in H. cbn [switch] in H.
        change (USB_RAW_EVENT_CONTROL =? USB_RAW_EVENT_CONNECT) with false in H.
        change (USB_RAW_EVENT_CONTROL =? USB_RAW_EVENT_CONTROL) with true in H.
        cbv iota in H. rewrite (ctrl_at_short _ L) in H.
        injection H as <-. reflexivity.
      * destruct (log_control_event event E L) as (c & _ & Hd).
        rewrite Hd in H. discriminate H.
    + destruct (log_other_event event N) as (o & Hd).
      rewrite Hd in H. discriminate H.
  - intros (E & L & ->). unfold log_event. rewrite E. cbn [switch].
    change (USB_RAW_EVENT_CONTROL =? USB_RAW_EVENT_CONNECT) with false.
    change (USB_RAW_EVENT_CONTROL =? USB_RAW_EVENT_CONTROL) with true.
    cbv iota. rewrite (ctrl_at_short _ L). reflexivity.
Qed.

(** X14.  A standard request is logged as the request line, the standard
    type line and what the request switch gives: its eight case constants
    differ, so a request with one of these codes takes the arm written for
    it, and every other code (SET_ADDRESS, SET_DESCRIPTOR and SYNCH_FRAME
    among them) is reported as unknown with [bRequest] in hexadecimal. *)
Theorem standard_request_logged (ctrl : usb_ctrlrequest) :
  Z.land (bRequestType ctrl) USB_TYPE_MASK = USB_TYPE_STANDARD ->
  NoDup (map fst (standard_arms ctrl))
  /\ exists lines,
       log_control_request ctrl =
       [ request_line ctrl; ("  type = USB_TYPE_STANDARD" ++ nl)%string ]
       ++ lines
       /\ (forall out, In (bRequest ctrl, out) (standard_arms ctrl) ->
           lines = out)
       /\ (~ In (bRequest ctrl)
               [ USB_REQ_GET_DESCRIPTOR; USB_REQ_SET_CONFIGURATION;
                 USB_REQ_GET_CONFIGURATION; USB_REQ_SET_INTERFACE;
                 USB_REQ_GET_INTERFACE; USB_REQ_GET_STATUS;
                 USB_REQ_CLEAR_FEATURE; USB_REQ_SET_FEATURE ] ->
           lines = [("  req = unknown = 0x" ++ fmt_x (bRequest ctrl)
                     ++ nl)%string]).
Proof.
  intros Ht.
  destruct (standard_request_codes ctrl) as (Ek & Hnd & Hdef).
  split; [exact Hnd|].
  exists (switch (bRequest ctrl) (standard_arms ctrl) (request_default ctrl)).
  split; [now apply log_standard_request|]. split.
  - intros out Hin. now apply switch_arm.
  - intros Hn. apply Hdef. rewrite Ek. exact Hn.
Qed.

(** X15.  [log_control_request] makes three [printf] calls, or four for a
    standard GET_DESCRIPTOR request, and never another number. *)
Theorem log_control_request_count (ctrl : usb_ctrlrequest) :
  length (log_control_request ctrl) =
  if (Z.land (bRequestType ctrl) USB_TYPE_MASK =? USB_TYPE_STANDARD)
     && (bRequest ctrl =? USB_REQ_GET_DESCRIPTOR)
  then 4%nat else 3%nat.
Proof.
  assert (Hdesc : length (switch (Z.shiftr (wValue ctrl) 8) descriptor_arms
                            (descriptor_default ctrl)) = 1%nat).
  { apply switch_all; [repeat constructor | reflexivity]. }
  assert (Hclass : length (switch (bRequest ctrl) class_arms
                             (request_default ctrl)) = 1%nat).
  { apply switch_all; [repeat constructor | reflexivity]. }
  destruct (type_mask_cases (bRequestType ctrl)) as [E|[E|[E|E]]].
  - rewrite (log_standard_request ctrl E), E, length_app.
    change (USB_TYPE_STANDARD =? USB_TYPE_STANDARD) with true.
    unfold standard_arms. cbn [switch andb].
    destruct (bRequest ctrl =? USB_REQ_GET_DESCRIPTOR).
    + cbn [length]. rewrite Hdesc. reflexivity.
    + repeat match goal with
             | |- context [if (bRequest ctrl =? ?k) then _ else _] =>
                 destruct (bRequest ctrl =? k)
             end; reflexivity.
  - rewrite (log_class_request ctrl E), E, length_app, Hclass. reflexivity.
  - unfold log_control_request. rewrite E. reflexivity.
  - unfold log_control_request. rewrite E. reflexivity.
Qed.

(* ===================================================================== *)
(** * Further properties of the declarations *)

(** X10.  The sixteen request macros are sixteen different 32-bit numbers,
    so a request value names its request; each carries the type character
    ['U'], its position in the list as number, and the size of its
    argument type as the layout gives it (257 bytes for
    [struct usb_raw_init], 960 for [struct usb_raw_eps_info], none for the
    four [_IO] requests), with the direction it was declared with. *)
Theorem request_codes_decode (r : usb_raw_ioctl) :
  request_of_code (request_code r) = Some r
  /\ 0 <= request_code r < 2 ^ 32
  /\ _IOC_TYPE (request_code r) = char_U
  /\ nth_error all_requests (Z.to_nat (_IOC_NR (request_code r))) = Some r
  /\ map (fun q => _IOC_SIZE (request_code q)) all_requests
     = [257; 0; 8; 8; 8; 9; 4; 8; 8; 0; 4; 960; 0; 4; 4; 4]
  /\ map (fun q => _IOC_DIR (request_code q)) all_requests
     = [ _IOC_WRITE; _IOC_NONE; _IOC_READ; _IOC_WRITE;
         Z.lor _IOC_READ _IOC_WRITE; _IOC_WRITE; _IOC_WRITE; _IOC_WRITE;
         Z.lor _IOC_READ _IOC_WRITE; _IOC_NONE; _IOC_WRITE; _IOC_READ;
         _IOC_NONE; _IOC_WRITE; _IOC_WRITE; _IOC_WRITE ].
Proof.
  repeat split; try (destruct r; vm_compute; congruence); reflexivity.
Qed.

(** X11.  A [struct usb_raw_ep_io] is read as the 16-bit endpoint in bytes
    0 and 1, the 16-bit flags in bytes 2 and 3, the 32-bit length in bytes
    4 to 7 and the data from byte 8 on; fewer than 8 bytes hold no such
    struct. *)
Theorem ep_io_wire_shape (e0 e1 f0 f1 n0 n1 n2 n3 : byte) (data : list byte) :
  member_table struct_usb_raw_ep_io =
    [ ("ep", (0, 2)); ("flags", (2, 2)); ("length", (4, 4));
      ("data", (8, 0)) ]%nat
  /\ ep_io_at ([e0; e1; f0; f1; n0; n1; n2; n3] ++ data)
     = Some (mk_ep_io (le_value [e0; e1]) (le_value [f0; f1])
               (le_value [n0; n1; n2; n3]) data)
  /\ (0 <= le_value [e0; e1] < 2 ^ 16 /\ 0 <= le_value [f0; f1] < 2 ^ 16
      /\ 0 <= le_value [n0; n1; n2; n3] < 2 ^ 32)
  /\ forall short : list byte, (length short < 8)%nat -> ep_io_at short = None.
Proof.
  split; [reflexivity|]. split; [reflexivity|]. split.
  { repeat split;
      first [ apply (le_value_range [e0; e1]) | apply (le_value_range [f0; f1])
            | apply (le_value_range [n0; n1; n2; n3]) ]. }
  intros short H.
  do 8 (destruct short as [|? short]; [reflexivity|]). cbn in H. lia.
Qed.

(** ** Entries of the endpoint table *)

Lemma array_at_nth {A : Type} (elt_at : list byte -> option A)
    (size n : nat) (mem : list byte) (l : list A) (i : nat) :
  array_at elt_at size n mem = Some l -> (i < n)%nat ->
  nth_error l i = elt_at (firstn size (skipn (i * size) mem)).
Proof.
  revert mem l i. induction n as [|n IH]; intros mem l i H Hi; [lia|].
  cbn [array_at] in H.
  destruct (elt_at (firstn size mem)) as [x|] eqn:Ex; [|discriminate H].
  destruct (array_at elt_at size n (skipn size mem)) as [xs|] eqn:Exs;
    [|discriminate H].
  injection H as <-. destruct i as [|i].
  - cbn. symmetry. exact Ex.
  - cbn [nth_error]. rewrite (IH _ _ i Exs) by lia.
    rewrite skipn_skipn. do 3 f_equal. cbn. lia.
Qed.

Lemma array_at_length {A : Type} (elt_at : list byte -> option A)
    (size n : nat) (mem : list byte) (l : list A) :
  array_at elt_at size n mem = Some l -> length l = n.
Proof.
  revert mem l. induction n as [|n IH]; intros mem l H; cbn [array_at] in H.
  - injection H as <-. reflexivity.
  - destruct (elt_at (firstn size mem)); [|discriminate H].
    destruct (array_at elt_at size n (skipn size mem)) eqn:E;
      [|discriminate H].
    injection H as <-. cbn. f_equal. eapply IH. exact E.
Qed.

Lemma firstn_skipn_firstn {A : Type} (l : list A) (k n m : nat) :
  (k + n <= m)%nat ->
  firstn n (skipn k (firstn m l)) = firstn n (skipn k l).
Proof.
  intros H. rewrite skipn_firstn_comm, firstn_firstn.
  f_equal. lia.
Qed.

(** X12.  Entry [i] of the endpoint table is the struct read from the 32
    bytes at offset [32 * i] of the object, and from nothing else. *)
Theorem eps_info_entry_at (mem : list byte) (table : usb_raw_eps_info_table)
    (i : nat) :
  eps_info_at mem = Some table ->
  (i < USB_RAW_EPS_NUM_MAX)%nat ->
  nth_error (eps table) i =
  ep_info_at (firstn (sizeof struct_usb_raw_ep_info)
                (skipn (i * sizeof struct_usb_raw_ep_info) mem))
  /\ exists ep, nth_error (eps table) i = Some ep.
Proof.
  intros H Hi. unfold eps_info_at in H.
  replace (member_bytes struct_usb_raw_eps_info "eps" mem)
    with (if (0 + 960 <=? length mem)%nat
          then Some (firstn 960 (skipn 0 mem)) else None) in H by reflexivity.
  change (sizeof struct_usb_raw_ep_info) with 32%nat in *.
  change USB_RAW_EPS_NUM_MAX with 30%nat in *.
  change (skipn 0 mem) with mem in H.
  destruct (Nat.leb_spec (0 + 960) (length mem)) as [_|_];
    [|discriminate H].
  destruct (array_at ep_info_at 32 30 (firstn 960 mem)) as [l|] eqn:El;
    [|discriminate H].
  injection H as <-. cbn [eps].
  pose proof (@array_at_length _ ep_info_at 32 30 _ l El) as Ll.
  split.
  - rewrite (@array_at_nth _ ep_info_at 32 30 _ l i El Hi).
    rewrite firstn_skipn_firstn by lia. reflexivity.
  - destruct (nth_error l i) as [ep|] eqn:E; [eauto|].
    apply nth_error_None in E. lia.
Qed.

(** ** The capability flags *)

Lemma low_bit (w i : Z) :
  0 <= i -> Z.land (Z.shiftr w i) (Z.ones 1) = Z.b2z (Z.testbit w i).
Proof.
  intros Hi. rewrite Z.land_ones by lia. change (2 ^ 1) with 2.
  rewrite <- Z.bit0_mod, Z.shiftr_spec by lia. reflexivity.
Qed.

Lemma testbit_first_byte (b : byte) (hi i : Z) :
  0 <= i < 8 -> Z.testbit (u8 b + 256 * hi) i = Z.testbit (u8 b) i.
Proof.
  intros Hi. pose proof (u8_range b) as Hb.
  assert (E : (u8 b + 256 * hi) mod 2 ^ 8 = u8 b).
  { change (2 ^ 8) with 256.
    replace (u8 b + 256 * hi) with (u8 b + hi * 256) by lia.
    rewrite Z.mod_add by lia. apply Z.mod_small. lia. }
  rewrite <- E at 2. symmetry. apply Z.mod_pow2_bits_low. lia.
Qed.

(** X13.  The six capability flags are bits 0 to 5 of the first byte of
    [struct usb_raw_ep_caps], in the order declared; its two other bits
    and the three bytes that follow are not looked at. *)
Theorem ep_caps_flags_bits (b0 b1 b2 b3 : byte) (rest : list byte) :
  ep_caps_at (b0 :: b1 :: b2 :: b3 :: rest) =
  Some (mk_ep_caps (bit_of b0 0) (bit_of b0 1) (bit_of b0 2)
                   (bit_of b0 3) (bit_of b0 4) (bit_of b0 5)).
Proof.
  rewrite (ep_caps_at_word (b0 :: b1 :: b2 :: b3 :: rest)
             (w := le_value [b0; b1; b2; b3])) by reflexivity.
  cbn [le_value]. unfold bit_of.
  rewrite !low_bit, !testbit_first_byte by lia. reflexivity.
Qed.

(** X16.  A [struct hid_descriptor] takes nine bytes, as both structs are
    packed: length, type, the 16-bit BCD version, country code and count in
    bytes 0 to 5, then the one class descriptor with its type in byte 6 and
    its 16-bit length in bytes 7 and 8, at an odd offset; fewer than nine
    bytes hold no such descriptor. *)
Theorem hid_descriptor_wire_shape (b0 b1 b2 b3 b4 b5 b6 b7 b8 : byte)
    (rest : list byte) :
  sizeof struct_hid_descriptor = 9%nat
  /\ member_table struct_hid_descriptor =
       [ ("bLength", (0, 1)); ("bDescriptorType", (1, 1)); ("bcdHID", (2, 2));
         ("bCountryCode", (4, 1)); ("bNumDescriptors", (5, 1));
         ("desc", (6, 3)) ]%nat
  /\ member_table struct_hid_class_descriptor =
       [ ("bDescriptorType", (0, 1)); ("wDescriptorLength", (1, 2)) ]%nat
  /\ hid_descriptor_at ([b0; b1; b2; b3; b4; b5; b6; b7; b8] ++ rest)
     = Some (mk_hid_descriptor (u8 b0) (u8 b1) (u8 b2 + 256 * u8 b3)
               (u8 b4) (u8 b5)
               [mk_hid_class_descriptor (u8 b6) (u8 b7 + 256 * u8 b8)])
  /\ forall short : list byte,
       (length short < 9)%nat -> hid_descriptor_at short = None.
Proof.
  split; [reflexivity|]. split; [reflexivity|]. split; [reflexivity|]. split.
  - assert (E : hid_descriptor_at ([b0; b1; b2; b3; b4; b5; b6; b7; b8] ++ rest)
              = Some (mk_hid_descriptor (le_value [b0]) (le_value [b1])
                        (le_value [b2; b3]) (le_value [b4]) (le_value [b5])
                        [mk_hid_class_descriptor (le_value [b6])
                           (le_value [b7; b8])])) by reflexivity.
    rewrite E. cbn [le_value]. rewrite !Z.mul_0_r, !Z.add_0_r. reflexivity.
  - intros short H.
    do 9 (destruct short as [|? short]; [reflexivity|]). cbn in H. lia.
Qed.

(* ===================================================================== *)
(** * Concrete runs of the further properties *)

(** The names of the dummy controller, the device name followed by a byte
    that is not copied. *)
Lemma usb_raw_init_struct_contents_witness :
  let dname := list_byte_of_string "dummy_udc" in
  let vname := list_byte_of_string "dummy_udc.0" in
  nul_free dname = true /\ nul_free vname = true
  /\ usb_raw_init sample_ioctl sample_strerror 3 USB_SPEED_HIGH
       (dname ++ x00 :: []) (vname ++ x00 :: [xff]) (mkProc 0 [])
     = match checked sample_strerror "ioctl(USB_RAW_IOCTL_INIT)"
               (sample_ioctl 3 USB_RAW_IOCTL_INIT
                  (ArgInit
                     (mk_usb_raw_init
                        (map Some (dname ++ [x00]) ++ repeat None 118)
                        (map Some (vname ++ [x00]) ++ repeat None 116)
                        3))) (mkProc 0 []) with
       | Returns _ p' => Returns tt p'
       | Exits s p' => Exits s p'
       | Undefined => Undefined
       end.
Proof.
  intros dname vname. split; [reflexivity|]. split; [reflexivity|].
  apply (@usb_raw_init_struct_contents Z sample_ioctl sample_strerror 3
           USB_SPEED_HIGH dname [] vname [xff] (mkProc 0 []));
    try reflexivity; apply Nat.ltb_lt; reflexivity.
Defined.

(** A driver name of 128 characters. *)
Lemma usb_raw_init_name_limit_witness :
  let dname := repeat x41 128 in
  let vname := list_byte_of_string "dummy_udc.0" in
  nul_free dname = true /\ nul_free vname = true
  /\ usb_raw_init sample_ioctl sample_strerror 3 USB_SPEED_HIGH
       (dname ++ x00 :: []) (vname ++ x00 :: []) (mkProc 0 [])
     = Undefined.
Proof.
  intros dname vname. split; [reflexivity|]. split; [reflexivity|].
  destruct (@usb_raw_init_name_limit Z sample_ioctl sample_strerror 3
              USB_SPEED_HIGH dname [] vname [] (mkProc 0 [])
              eq_refl eq_refl) as [[_ H] _].
  apply H. left. apply Nat.leb_le. reflexivity.
Defined.

(** A vendor request to the device. *)
Lemma vendor_requests_unknown_witness :
  let ctrl := mk_ctrlrequest 0xc0 0x06 0x0100 0 18 in
  Z.testbit (bRequestType ctrl) 6 = true
  /\ log_control_request ctrl =
     [ request_line ctrl;
       ("  type = USB_TYPE_VENDOR" ++ nl)%string;
       ("  req = unknown = 0x6" ++ nl)%string ].
Proof.
  intros ctrl. split; [reflexivity|].
  exact (vendor_requests_unknown ctrl eq_refl).
Defined.

(** Two class requests that differ in direction, recipient, the low byte
    of [wValue], [wIndex] and [wLength]. *)
Lemma classification_ignores_other_fields_witness :
  let c1 := mk_ctrlrequest 0xa1 0x03 0x0100 0 1 in
  let c2 := mk_ctrlrequest 0x22 0x03 0x01ff 7 0 in
  tl (log_control_request c1) = tl (log_control_request c2).
Proof.
  intros c1 c2.
  apply (classification_ignores_other_fields c1 c2);
    [reflexivity | discriminate | reflexivity | reflexivity].
Defined.

(** GET_DESCRIPTOR for the device descriptor, as it comes from the
    kernel. *)
Lemma get_descriptor_on_the_wire_witness :
  exists line,
    log_event (mk_event USB_RAW_EVENT_CONTROL 8
                 [x80; x06; x00; x01; x00; x00; x12; x00]) =
    Done ([ ("event: control, length: " ++ fmt_u 8 ++ nl)%string;
            line;
            ("  type = USB_TYPE_STANDARD" ++ nl)%string;
            ("  req = USB_REQ_GET_DESCRIPTOR" ++ nl)%string ]
          ++ switch (u8 x01) descriptor_arms
               [("  desc = unknown = 0x" ++ fmt_x (u8 x01) ++ nl)%string]).
Proof.
  exact (get_descriptor_on_the_wire 8 x80 x06 x00 x01 x00 x00 x12 x00 []
           eq_refl eq_refl).
Defined.

(** Entry 29 of a zeroed table. *)
Lemma eps_info_entry_at_witness :
  let mem := repeat x00 960 in
  let zero := mk_ep_info (repeat x00 16) 0 (mk_ep_caps 0 0 0 0 0 0)
                         (mk_ep_limits 0 0 0) in
  eps_info_at mem = Some (mk_eps_info (repeat zero 30))
  /\ nth_error (repeat zero 30) 29 =
     ep_info_at (firstn (sizeof struct_usb_raw_ep_info)
                   (skipn (29 * sizeof struct_usb_raw_ep_info) mem)).
Proof.
  intros mem zero.
  assert (E : eps_info_at mem = Some (mk_eps_info (repeat zero 30)))
    by (vm_compute; reflexivity).
  split; [exact E|].
  assert (L : (29 < USB_RAW_EPS_NUM_MAX)%nat) by (apply Nat.ltb_lt; reflexivity).
  exact (proj1 (@eps_info_entry_at mem _ 29%nat E L)).
Defined.

(** SET_ADDRESS, a standard request the switch has no arm for. *)
Lemma standard_request_logged_witness :
  let ctrl := mk_ctrlrequest 0x00 USB_REQ_SET_ADDRESS 0x0005 0 0 in
  log_control_request ctrl =
  [ request_line ctrl; ("  type = USB_TYPE_STANDARD" ++ nl)%string;
    ("  req = unknown = 0x5" ++ nl)%string ].
Proof.
  intros ctrl.
  destruct (standard_request_logged ctrl eq_refl) as (_ & lines & E & _ & H).
  rewrite E, H; [reflexivity|].
  cbn. intuition discriminate.
Defined.
